(** * labyrinth: data preparation and streaming of [am_training.ipynb]

    A shallow embedding of the notebook's data pipeline:
    - [get_padded_last_timestamp], [get_phoneme_timestamps]: the frame
      timeline built from phoneme intervals;
    - [save_phoneme_frames], [mp__save_phoneme_frames]: the segment writer
      and its pool driver;
    - [grouper], [stream_batch], [IterableAudioStreamDataset]: the
      partitioned stream.

    Conventions of the embedding.
    - Timestamps are exact rationals ([Q]): on them [int(x)] is truncation
      toward zero ([py_int]), [x // n] the floor of the quotient and [a / b]
      the exact quotient.  Sample positions, [int(t * sr)], are computed in
      binary64 ([PrimFloat]) from the double nearest to the timestamp.
    - Python integers are [Z]; lists are [list]; [None] in a tuple produced
      by [zip_longest] is [None : option _].
    - A raised exception is the [Raise] constructor of [result]; the
      [try ... except FileNotFoundError: pass] of the writer is [catch_fnf].
    - The file system is three lookup functions: the annotation files, as
      the lines that [split] and [float] see, the wave files, and the
      directories that exist. *)

From Stdlib Require Import ZArith QArith Qround Qabs Lqa List String Ascii Bool Lia Arith.
From Stdlib Require Import DecimalString DecimalNat.
From Stdlib Require PrimFloat SpecFloat FloatOps Uint63.
Import ListNotations.

Open Scope Z_scope.

(** ** Exceptions *)

Inductive exn : Type :=
| TypeError
| ValueError
| AssertionError
| FileNotFoundError
| ZeroDivisionError
| AttributeError
| OverflowError.

Inductive result (A : Type) : Type :=
| Ok (a : A)
| Raise (e : exn).

Arguments Ok {A} a.
Arguments Raise {A} e.

Definition bind {A B : Type} (r : result A) (k : A -> result B) : result B :=
  match r with
  | Ok a => k a
  | Raise e => Raise e
  end.

Notation "x <- r ;; k" := (bind r (fun x => k))
  (at level 61, r at next level, right associativity).

(** ** Python primitives *)

Module Py.

(** [int(x)] for a float [x]: truncation toward zero. *)
Definition py_int (x : Q) : Z := Z.quot (Qnum x) (Z.pos (Qden x)).

(** [x // n] for a float [x]: the floor of the quotient, as a float. *)
Definition floordiv (x n : Q) : Q := inject_Z (Qfloor (x / n)%Q).

(** [range(start, stop, step)] for a positive [step], unrolled at most
    [fuel] times. *)
Fixpoint range_from (fuel : nat) (i stop step : Z) : list Z :=
  match fuel with
  | O => []
  | S fuel' => if i <? stop then i :: range_from fuel' (i + step) stop step else []
  end.

Definition range (start stop step : Z) : list Z :=
  range_from (Z.to_nat (stop - start)) start stop step.

(** [l[start:stop]] with Python's treatment of negative and out of range
    bounds. *)
Definition clamp_index (len i : Z) : Z :=
  if i <? 0 then Z.max 0 (i + len) else Z.min i len.

Definition slice {A : Type} (l : list A) (start stop : Z) : list A :=
  let len := Z.of_nat (List.length l) in
  let s := clamp_index len start in
  let e := clamp_index len stop in
  firstn (Z.to_nat (e - s)) (skipn (Z.to_nat s) l).

(** [needle in s] on strings. *)
Fixpoint contains (needle s : string) : bool :=
  if prefix needle s then true
  else match s with
       | EmptyString => false
       | String _ s' => contains needle s'
       end.

(** [s.replace(old, empty)] for a non-empty [old] and the empty string: the occurrences of [old]
    are dropped from left to right. *)
Fixpoint remove_all_from (fuel : nat) (old s : string) : string :=
  match fuel with
  | O => s
  | S fuel' =>
      match s with
      | EmptyString => EmptyString
      | String c s' =>
          if prefix old s
          then remove_all_from fuel' old
                 (substring (String.length old) (String.length s - String.length old) s)
          else String c (remove_all_from fuel' old s')
      end
  end.

Definition remove_all (old s : string) : string :=
  remove_all_from (String.length s) old s.

(** [s.rsplit(sep)[-1]] for a one character [sep]: what follows the last
    separator. *)
Fixpoint last_field (sep : ascii) (s : string) : string :=
  match s with
  | EmptyString => EmptyString
  | String c s' =>
      if contains (String sep EmptyString) s' then last_field sep s'
      else if Ascii.eqb c sep then s' else s
  end.

(** [str(n)] for a natural number. *)
Definition str (n : nat) : string := NilEmpty.string_of_uint (Nat.to_uint n).

(** [float(n)] for an integer of magnitude below 2^63; the conversion is
    exact below 2^53. *)
Definition float_of_int (z : Z) : PrimFloat.float :=
  match z with
  | Z0 => PrimFloat.zero
  | Zpos _ => PrimFloat.of_uint63 (Uint63.of_Z z)
  | Zneg p => PrimFloat.opp (PrimFloat.of_uint63 (Uint63.of_Z (Zpos p)))
  end.

(** The double nearest to a rational: the correctly rounded quotient of its
    numerator by its denominator (both below 2^53 in magnitude), which is
    what [a / b] gives on two such integers. *)
Definition float_of_Q (q : Q) : PrimFloat.float :=
  PrimFloat.div (float_of_int (Qnum q)) (float_of_int (Z.pos (Qden q))).

(** [int(x)] for a double: truncation toward zero; an infinity raises
    [OverflowError] and a NaN [ValueError]. *)
Definition int_of_float (x : PrimFloat.float) : result Z :=
  match FloatOps.Prim2SF x with
  | SpecFloat.S754_zero _ => Ok 0
  | SpecFloat.S754_finite s m e =>
      let v := if 0 <=? e then Z.shiftl (Z.pos m) e else Z.shiftr (Z.pos m) (- e) in
      Ok (if s then - v else v)
  | SpecFloat.S754_infinity _ => Raise OverflowError
  | SpecFloat.S754_nan => Raise ValueError
  end.

(** The directory of a path: what precedes its last "/". *)
Fixpoint dir_of (s : string) : string :=
  match s with
  | EmptyString => EmptyString
  | String c s' =>
      if contains (String "/" EmptyString) s' then String c (dir_of s')
      else EmptyString
  end.

End Py.

(** ** Config *)

Definition FRAME_SIZE : Z := 250.
Definition WINDOW : Z := 50.

(** ** Frame timeline *)

(** One well formed line of an annotation file: start time, end time,
    phoneme. *)
Record Interval : Type := mkInterval {
  iv_start : Q;
  iv_end : Q;
  iv_phoneme : string
}.

(** One entry of the list returned by [get_phoneme_timestamps]. *)
Record Frame : Type := mkFrame {
  start : Q;
  end_ : Q;
  phoneme : string
}.

Definition get_padded_last_timestamp (timestamp : Q) : Q :=
  let diff := ((timestamp - inject_Z (Py.py_int timestamp)) * 1000)%Q in
  if Qeq_bool diff 0 then timestamp
  else
    let padding := (Py.floordiv diff (inject_Z FRAME_SIZE) + 1)%Q in
    ((inject_Z (Py.py_int timestamp) + (inject_Z FRAME_SIZE * padding) / 1000) * 1000)%Q.

(** The inner loop: [sym] is overwritten by each interval until the first
    one whose end lies beyond [end_time], where the loop breaks. *)
Fixpoint scan_intervals (end_time : Q) (ivs : list Interval) (sym : option string)
  : option string :=
  match ivs with
  | [] => sym
  | iv :: rest =>
      if negb (Qle_bool (iv_end iv) end_time) then sym
      else scan_intervals end_time rest (Some (iv_phoneme iv))
  end.

(** [sym or "SIL"]: [None] and the empty string are both falsy. *)
Definition or_SIL (sym : option string) : string :=
  match sym with
  | None => "SIL"%string
  | Some EmptyString => "SIL"%string
  | Some s => s
  end.

Definition frame_at (ivs : list Interval) (i : Z) : Frame :=
  let start_time := (inject_Z i / 1000)%Q in
  let end_time := (inject_Z (i + FRAME_SIZE) / 1000)%Q in
  mkFrame start_time end_time (or_SIL (scan_intervals end_time ivs None)).

(** [float(ends[-1])]: the end of the last line of the file. *)
Definition last_end (iv : Interval) (rest : list Interval) : Q :=
  iv_end (last rest iv).

Definition padded_last_timestamp (ivs : list Interval) : result Z :=
  match ivs with
  | [] => Raise ValueError
  | iv :: rest => Ok (Py.py_int (get_padded_last_timestamp (last_end iv rest)))
  end.

(** The body of [get_phoneme_timestamps] on a file whose lines all have
    three fields and a finite end, [ivs]: what [timeline_of_lines] below
    gives on such lines.  An empty file makes the unpacking of [zip( *[])]
    fail with [ValueError]. *)
Definition build_timeline (ivs : list Interval) : result (list Frame) :=
  p <- padded_last_timestamp ivs ;;
  Ok (map (frame_at ivs) (Py.range 0 p WINDOW)).

(** ** Annotation files *)

(** What [float] makes of a field that it accepts. *)
Inductive pyfloat : Type :=
| Finite (q : Q)
| Infinite (negative : bool)
| NaN.

(** One line of an annotation file as the code sees it: the number of
    fields [split("\t")] gives, what [float] gives on the second field
    ([None] when it raises [ValueError]) and the third field.  The first
    field is unpacked and never read. *)
Record Line : Type := mkLine {
  l_fields : nat;
  l_end : option pyfloat;
  l_phoneme : string
}.

(** A line with three fields and a finite end. *)
Definition line_of (iv : Interval) : Line :=
  mkLine 3 (Some (Finite (iv_end iv))) (iv_phoneme iv).

(** The number of tuples of [zip( *rows)]: the length of the shortest row,
    none without rows. *)
Definition columns (lines : list Line) : nat :=
  match lines with
  | [] => O
  | l :: rest => fold_left Nat.min (map l_fields rest) (l_fields l)
  end.

(** [starts, ends, phonemes = zip( *rows)]: exactly three columns. *)
Definition unpack3 (lines : list Line) : result unit :=
  if Nat.eqb (columns lines) 3 then Ok tt else Raise ValueError.

(** [float(end)]. *)
Definition float_field (l : Line) : result pyfloat :=
  match l_end l with
  | None => Raise ValueError
  | Some x => Ok x
  end.

(** [int(get_padded_last_timestamp(last_timestamp))]: the first
    [int(timestamp)] fails on an infinity or a NaN. *)
Definition padded_of (x : pyfloat) : result Z :=
  match x with
  | Finite q => Ok (Py.py_int (get_padded_last_timestamp q))
  | Infinite _ => Raise OverflowError
  | NaN => Raise ValueError
  end.

(** [float(end) > end_time]. *)
Definition float_gt (x : pyfloat) (end_time : Q) : bool :=
  match x with
  | Finite q => negb (Qle_bool q end_time)
  | Infinite negative => negb negative
  | NaN => false
  end.

(** The inner loop on the lines of a file: each end is converted when the
    scan reaches it. *)
Fixpoint scan_lines (end_time : Q) (lines : list Line) (sym : option string)
  : result (option string) :=
  match lines with
  | [] => Ok sym
  | l :: rest =>
      x <- float_field l ;;
      if float_gt x end_time then Ok sym
      else scan_lines end_time rest (Some (l_phoneme l))
  end.

(** The outer loop over the values of [range(0, padded_last_timestamp,
    WINDOW)]. *)
Fixpoint frames_of (lines : list Line) (indices : list Z) : result (list Frame) :=
  match indices with
  | [] => Ok []
  | i :: rest =>
      let start_time := (inject_Z i / 1000)%Q in
      let end_time := (inject_Z (i + FRAME_SIZE) / 1000)%Q in
      sym <- scan_lines end_time lines None ;;
      frames <- frames_of lines rest ;;
      Ok (mkFrame start_time end_time (or_SIL sym) :: frames)
  end.

(** The body of [get_phoneme_timestamps] on the lines read. *)
Definition timeline_of_lines (lines : list Line) : result (list Frame) :=
  _ <- unpack3 lines ;;
  match lines with
  | [] => Raise ValueError
  | l :: rest =>
      last_timestamp <- float_field (last rest l) ;;
      padded_last_timestamp <- padded_of last_timestamp ;;
      frames_of lines (Py.range 0 padded_last_timestamp WINDOW)
  end.

(** ** Segment writer *)

(** What the code finds on disk.  [labels path] is the content of an
    annotation file, line by line, [None] when the file does not exist.
    [waves path] is what [wavfile.read(path)] does: it returns the sample
    rate (a 32 bit field of the header) and the samples, or raises,
    [FileNotFoundError] when the file does not exist.  [dirs d] tells
    whether the directory [d] exists. *)
Record FileSystem : Type := mkFS {
  labels : string -> option (list Line);
  waves : string -> result (Z * list Z);
  dirs : string -> bool
}.

(** One call of [wavfile.write(path, sr, data)]. *)
Record WavWrite : Type := mkWrite {
  w_path : string;
  w_sr : Z;
  w_data : list Z
}.

Definition get_phoneme_timestamps (fs : FileSystem) (audio_label_path : string)
  : result (list Frame) :=
  match labels fs audio_label_path with
  | None => Raise FileNotFoundError
  | Some lines => timeline_of_lines lines
  end.

Definition wavfile_read (fs : FileSystem) (audio_path : string) : result (Z * list Z) :=
  waves fs audio_path.

Definition audio_name_of (audio_path : string) : string :=
  Py.last_field "/" (Py.remove_all ".wav" audio_path).

Definition label_path_of (audio_name : string) : string :=
  ("data/raw/" ++ audio_name ++ "_labels.txt")%string.

Definition segment_path (audio_name phoneme : string) (n : nat) : string :=
  ("data/phonemes/" ++ audio_name ++ "__" ++ phoneme ++ "__" ++ Py.str n ++ ".wav")%string.

(** [data_size = int((sr * FRAME_SIZE)/1000)]. *)
Definition data_size_of (sr : Z) : Z :=
  Py.py_int (inject_Z (sr * FRAME_SIZE) / 1000)%Q.

(** [int(t * sr)] for a frame boundary [t] in seconds: the product of the
    double that holds [t] by the rate, truncated. *)
Definition sample_index (t : Q) (sr : Z) : result Z :=
  Py.int_of_float (PrimFloat.mul (Py.float_of_Q t) (Py.float_of_int sr)).

(** [np.pad(data, (0, data_size - len(data)), 'constant', constant_values=(0))]
    under its guard [len(data) < data_size]. *)
Definition pad_data (data : list Z) (data_size : Z) : list Z :=
  if Z.of_nat (List.length data) <? data_size
  then data ++ repeat 0 (Z.to_nat (data_size - Z.of_nat (List.length data)))
  else data.

(** [wavfile.write(path, sr, data)] opens [path] for writing, which fails
    when its directory does not exist. *)
Definition wavfile_write (fs : FileSystem) (path : string) (sr : Z) (data : list Z)
  : result WavWrite :=
  if dirs fs (Py.dir_of path) then Ok (mkWrite path sr data)
  else Raise FileNotFoundError.

(** The body of the [for] loop at position [i] of the enumeration, for a
    phoneme that is not out of vocabulary. *)
Definition write_frame (fs : FileSystem) (audio_name : string) (sr : Z)
  (wav : list Z) (data_size : Z) (i : nat) (f : Frame) : result WavWrite :=
  s <- sample_index (start f) sr ;;
  e <- sample_index (end_ f) sr ;;
  let data := Py.slice wav s e in
  wavfile_write fs (segment_path audio_name (phoneme f) (i + 1)) sr
    (pad_data data data_size).

(** How a body that writes files ends: the writes it made, and [Ok] or the
    exception that stopped it. *)
Definition WriterRun : Type := (list WavWrite * result unit)%type.

(** The [for] loop: frames with an out of vocabulary phoneme are passed
    over, and the first exception ends the loop. *)
Fixpoint write_frames (fs : FileSystem) (audio_name : string) (sr : Z)
  (wav : list Z) (data_size : Z) (i : nat) (frames : list Frame) : WriterRun :=
  match frames with
  | [] => ([], Ok tt)
  | f :: rest =>
      if Py.contains "oov" (phoneme f)
      then write_frames fs audio_name sr wav data_size (S i) rest
      else
        match write_frame fs audio_name sr wav data_size i f with
        | Ok w =>
            let r := write_frames fs audio_name sr wav data_size (S i) rest in
            (w :: fst r, snd r)
        | Raise e => ([], Raise e)
        end
  end.

(** [try: ... except FileNotFoundError: pass]: the writes made before the
    exception stay. *)
Definition catch_fnf (r : WriterRun) : result (list WavWrite) :=
  match snd r with
  | Ok _ => Ok (fst r)
  | Raise FileNotFoundError => Ok (fst r)
  | Raise e => Raise e
  end.

(** The writes of [save_phoneme_frames(audio_path)], in order. *)
Definition save_phoneme_frames (fs : FileSystem) (audio_path : string)
  : result (list WavWrite) :=
  let audio_name := audio_name_of audio_path in
  let audio_label_path := label_path_of audio_name in
  catch_fnf
    match get_phoneme_timestamps fs audio_label_path with
    | Raise e => ([], Raise e)
    | Ok phoneme_timestamps =>
        match wavfile_read fs audio_path with
        | Raise e => ([], Raise e)
        | Ok srwav =>
            let sr := fst srwav in
            let wav := snd srwav in
            let data_size := data_size_of sr in
            write_frames fs audio_name sr wav data_size 0 phoneme_timestamps
        end
    end.

(** ** Pool driver *)

(** What a run of the driver did: the size of the pool, the paths handed to
    [pool.map] and the outcome of the worker on each of them. *)
Record PoolRun : Type := mkPoolRun {
  pool_size : Z;
  tasks : list string;
  outcomes : list (result (list WavWrite))
}.

(** [workers or mp.cpu_count()]: [None] and [0] are falsy. *)
Definition workers_or (workers : option Z) (cpu_count : Z) : Z :=
  match workers with
  | None => cpu_count
  | Some 0 => cpu_count
  | Some w => w
  end.

(** [mp.Pool(n)] refuses a pool of less than one process. *)
Definition Pool (n : Z) : result Z :=
  if n <? 1 then Raise ValueError else Ok n.

(** [pool.map] raises again, in the parent, the exception of a worker
    that failed.  When several workers fail the one that is raised again
    depends on the scheduling; it is taken here in the order of the
    tasks. *)
Fixpoint first_raised {A : Type} (results : list (result A)) : option exn :=
  match results with
  | [] => None
  | Raise e :: _ => Some e
  | Ok _ :: rest => first_raised rest
  end.

(** [mp__save_phoneme_frames(fn, data, workers)].  The notebook's global
    [audio_files] and the machine's [mp.cpu_count()] are the first two
    arguments.  The body maps the global function [save_phoneme_frames]
    over the global [audio_files]; its parameters [fn] and [data] do not
    occur in it. *)
Definition mp__save_phoneme_frames
  (audio_files : list string) (cpu_count : Z) (fs : FileSystem)
  (fn : string -> result (list WavWrite)) (data : list string) (workers : option Z)
  : result PoolRun :=
  let workers := workers_or workers cpu_count in
  pool <- Pool workers ;;
  let results := map (save_phoneme_frames fs) audio_files in
  match first_raised results with
  | Some e => Raise e
  | None => Ok (mkPoolRun pool audio_files results)
  end.

(** ** Partitioned stream *)

(** One tuple of [zip_longest]: [n] slots, [None] where the iterator ran
    out. *)
Fixpoint take_fill {A : Type} (n : nat) (l : list A) : list (option A) * list A :=
  match n with
  | O => ([], l)
  | S n' =>
      match l with
      | [] => let (b, r) := take_fill n' [] in (None :: b, r)
      | x :: l' => let (b, r) := take_fill n' l' in (Some x :: b, r)
      end
  end.

Fixpoint grouper_from {A : Type} (fuel : nat) (l : list A) (n : nat)
  : list (list (option A)) :=
  match fuel with
  | O => []
  | S fuel' =>
      match l with
      | [] => []
      | _ => let (b, r) := take_fill n l in b :: grouper_from fuel' r n
      end
  end.

(** [grouper(iterable, n)]: [zip_longest] over [n] references to one
    iterator.  Without iterators ([n = 0]) [zip_longest] yields nothing. *)
Definition grouper {A : Type} (iterable : list A) (n : Z) : list (list (option A)) :=
  match Z.to_nat n with
  | O => []
  | n' => grouper_from (List.length iterable) iterable n'
  end.

Record Dataset : Type := mkDataset {
  files : list string;
  batch_size : Z
}.

(** [IterableAudioStreamDataset.__init__]; [found] is what [glob] finds
    under [data_path]. *)
Definition init (found : list string) (batch_size : Z) : result Dataset :=
  match found with
  | [] => Raise AssertionError
  | _ => if batch_size >? 0 then Ok (mkDataset found batch_size)
         else Raise AssertionError
  end.

(** What [torch.utils.data.get_worker_info()] returns in a worker. *)
Record WorkerInfo : Type := mkWorkerInfo {
  id : Z;
  num_workers : Z
}.

(** [start_idx] and [end_idx] as [__iter__] computes them. *)
Definition index_range (ds : Dataset) (worker_info : option WorkerInfo) : result (Z * Z) :=
  let len := Z.of_nat (List.length (files ds)) in
  if batch_size ds =? 0 then Raise ZeroDivisionError
  else
    let files_per_batch := Qceiling (inject_Z len / inject_Z (batch_size ds))%Q in
    match worker_info with
    | None => Ok (0, files_per_batch)
    | Some w =>
        let n_workers := num_workers w in
        if n_workers =? 0 then Raise ZeroDivisionError
        else
          let work_load := len / n_workers in
          let start_idx := id w * work_load in
          Ok (start_idx, start_idx + work_load)
    end.

(** The argument [__iter__] builds for [stream_batch]:
    [grouper(self.files[start_idx:end_idx], self.batch_size)]. *)
Definition grouped_files (ds : Dataset) (worker_info : option WorkerInfo)
  : result (list (list (option string))) :=
  se <- index_range ds worker_info ;;
  Ok (grouper (Py.slice (files ds) (fst se) (snd se)) (batch_size ds)).

(** The objects that reach a call in this part of the notebook. *)
Inductive pyobj : Type :=
| PDataset (ds : Dataset)
| PGrouped (batches : list (list (option string))).

(** A call of a [def] with positional arguments only: the number of
    arguments must be the number of parameters. *)
Definition call {R : Type} (params : list string) (body : list pyobj -> result R)
  (args : list pyobj) : result R :=
  if Nat.eqb (List.length args) (List.length params) then body args
  else Raise TypeError.

(** [obj.name]: a dataset has its two fields and its two methods, a
    [zip_longest] object has none of the names used here. *)
Definition has_attr (obj : pyobj) (name : string) : bool :=
  match obj with
  | PDataset _ =>
      existsb (String.eqb name) ["files"; "batch_size"; "__init__"; "__iter__"]%string
  | PGrouped _ => false
  end.

(** [def stream_batch(self, batched_files)], a function of the module. *)
Definition stream_batch_params : list string := ["self"; "batched_files"]%string.

(** [return map(self.lazy_load_files, batched_files)]: the attribute is
    looked up on [self] first.  The spectrograms themselves are outside the
    model: a batch of files stands for the batch of its transforms. *)
Definition stream_batch_body (args : list pyobj) : result (list (list (option string))) :=
  match args with
  | [self; batched_files] =>
      if has_attr self "lazy_load_files"
      then match batched_files with
           | PGrouped batches => Ok batches
           | PDataset _ => Raise TypeError
           end
      else Raise AttributeError
  | _ => Raise TypeError
  end.

Definition stream_batch : list pyobj -> result (list (list (option string))) :=
  call stream_batch_params stream_batch_body.

(** [IterableAudioStreamDataset.__iter__]: the last line calls
    [stream_batch] with the grouped files as its only argument. *)
Definition iter (ds : Dataset) (worker_info : option WorkerInfo)
  : result (list (list (option string))) :=
  g <- grouped_files ds worker_info ;;
  stream_batch [PGrouped g].

(** ** Notions of the specification, for comparison with the code *)

(** An interval qualifies for a frame when its end does not exceed the
    frame's end. *)
Definition qualifies (end_time : Q) (iv : Interval) : bool :=
  Qle_bool (iv_end iv) end_time.

(** The phoneme of the last qualifying interval of the whole list. *)
Fixpoint last_phoneme (ivs : list Interval) : option string :=
  match ivs with
  | [] => None
  | iv :: rest =>
      match last_phoneme rest with
      | Some p => Some p
      | None => Some (iv_phoneme iv)
      end
  end.

Definition last_qualifying (end_time : Q) (ivs : list Interval) : option string :=
  last_phoneme (filter (qualifies end_time) ivs).

Definition label_by_last_qualifying (end_time : Q) (ivs : list Interval) : string :=
  match last_qualifying end_time ivs with
  | None => "SIL"%string
  | Some p => p
  end.

(** The intervals before the first one that does not qualify. *)
Fixpoint qualifying_prefix (end_time : Q) (ivs : list Interval) : list Interval :=
  match ivs with
  | [] => []
  | iv :: rest =>
      if qualifies end_time iv then iv :: qualifying_prefix end_time rest else []
  end.

(** Ends in non-decreasing order. *)
Fixpoint ends_sorted (ivs : list Interval) : Prop :=
  match ivs with
  | [] => True
  | iv :: rest =>
      (forall iv', In iv' rest -> (iv_end iv <= iv_end iv')%Q) /\ ends_sorted rest
  end.

(** ** Concrete inputs and auxiliary notions *)

(** Three intervals, each with [start < end], whose ends are not in
    order. *)
Definition unsorted_ends : list Interval :=
  [mkInterval 0 0.1 "a"; mkInterval 0.1 0.9 "b"; mkInterval 0.15 0.2 "c"].

Definition sorted_ends : list Interval :=
  [mkInterval 0 0.1 "a"; mkInterval 0.1 0.2 "b"; mkInterval 0.2 0.9 "c"].

Definition late_interval : list Interval := [mkInterval 0.5 0.9 "z"].

(** The index range [start_idx, end_idx) of worker [id] among [count]. *)
Definition in_partition (len count id k : Z) : Prop :=
  id * (len / count) <= k < id * (len / count) + len / count.

Definition ten : list string :=
  ["p0"; "p1"; "p2"; "p3"; "p4"; "p5"; "p6"; "p7"; "p8"; "p9"]%string.

Definition seven : list string := ["i0"; "i1"; "i2"; "i3"; "i4"; "i5"; "i6"]%string.

(** A recording with an out of vocabulary phoneme in its annotation. *)
Definition fs_oov : FileSystem :=
  mkFS (fun p => if String.eqb p "data/raw/a_labels.txt"
                 then Some (map line_of [mkInterval 0.10 0.15 "ah_S";
                                         mkInterval 0.15 0.30 "oov_S"])
                 else None)
       (fun p => if String.eqb p "data/raw/a.wav"
                 then Ok (8, [3; 1; 4; 1; 5])
                 else Raise FileNotFoundError)
       (String.eqb "data/phonemes").

(** Python's [round] on a rational: the nearest integer, the even one of
    the two when [x] lies halfway. *)
Definition py_round (x : Q) : Z :=
  let f := Qfloor x in
  let r := (x - inject_Z f)%Q in
  if Qeq_bool r (1 # 2) then (if Z.even f then f else f + 1)
  else if Qle_bool r (1 # 2) then f else f + 1.

(** The frame length in the specification's words:
    [samplesPerFrame = round(sr * FRAME_SIZE / 1000)]. *)
Definition samples_per_frame_spec (sr : Z) : Z :=
  py_round (inject_Z sr * inject_Z FRAME_SIZE / 1000)%Q.

(** A recording of one sample at 22255 Hz. *)
Definition fs_22255 : FileSystem :=
  mkFS (fun p => if String.eqb p "data/raw/a_labels.txt"
                 then Some (map line_of [mkInterval 0.10 0.15 "ah_S"])
                 else None)
       (fun p => if String.eqb p "data/raw/a.wav"
                 then Ok (22255, [7])
                 else Raise FileNotFoundError)
       (String.eqb "data/phonemes").

(** [n] is an integer nearest to [x]. *)
Definition is_nearest (x : Q) (n : Z) : Prop :=
  (Qabs (x - inject_Z n) <= 1 # 2)%Q.

(** A recording at 11025 Hz, long enough for every frame of its timeline. *)
Definition fs_11025 : FileSystem :=
  mkFS (fun p => if String.eqb p "data/raw/a_labels.txt"
                 then Some (map line_of [mkInterval 0.10 0.15 "ah_S"])
                 else None)
       (fun p => if String.eqb p "data/raw/a.wav"
                 then Ok (11025, repeat 7 (Z.to_nat 6000))
                 else Raise FileNotFoundError)
       (String.eqb "data/phonemes").

(** ** Loaders behind [stream_batch] *)

(** The values that reach [wav_to_spectrogram] and [lazy_load_files]: a
    dataset, one slot of a batch (a path, or the filler [None]), or a whole
    batch. *)
Inductive loader_arg : Type :=
| LSelf (ds : Dataset)
| LFile (file : option string)
| LFiles (batch : list (option string)).

(** A call with positional arguments only, over [loader_arg]. *)
Definition call_loader {R : Type} (params : list string)
  (body : list loader_arg -> result R) (args : list loader_arg) : result R :=
  if Nat.eqb (List.length args) (List.length params) then body args
  else Raise TypeError.

(** The parameters of [scipy.signal.spectrogram]. *)
Definition spectrogram_keywords : list string :=
  ["x"; "fs"; "window"; "nperseg"; "noverlap"; "nfft"; "detrend";
   "return_onesided"; "scaling"; "axis"; "mode"]%string.

(** [spectrogram(data, keyword=sr)]: a keyword that is not a parameter of
    the function is a [TypeError].  [spectrogram data sr] stands for the
    third component of what scipy returns when the call is accepted. *)
Definition call_spectrogram {S : Type} (spectrogram : list Z -> Z -> S)
  (keyword : string) (data : list Z) (sr : Z) : result S :=
  if existsb (String.eqb keyword) spectrogram_keywords
  then Ok (spectrogram data sr)
  else Raise TypeError.

(** [def wav_to_spectrogram(self, file)]: [wavfile.read(file)], then
    [spectrogram(data, Fs=sr)].  Opening something that is not a path is a
    [TypeError]. *)
Definition wav_to_spectrogram_params : list string := ["self"; "file"]%string.

Definition wav_to_spectrogram_body {S : Type} (spectrogram : list Z -> Z -> S)
  (fs : FileSystem) (args : list loader_arg) : result S :=
  match args with
  | [_; LFile (Some file)] =>
      srdata <- wavfile_read fs file ;;
      call_spectrogram spectrogram "Fs" (snd srdata) (fst srdata)
  | _ => Raise TypeError
  end.

Definition wav_to_spectrogram {S : Type} (spectrogram : list Z -> Z -> S)
  (fs : FileSystem) : list loader_arg -> result S :=
  call_loader wav_to_spectrogram_params (wav_to_spectrogram_body spectrogram fs).

(** [def lazy_load_files(self, files)]: [map(wav_to_spectrogram, files)].
    The lazy [map] object is the list of what each of its elements gives
    when it is forced: [wav_to_spectrogram] applied to that one file. *)
Definition lazy_load_files_params : list string := ["self"; "files"]%string.

Definition lazy_load_files_body {S : Type} (spectrogram : list Z -> Z -> S)
  (fs : FileSystem) (args : list loader_arg) : result (list (result S)) :=
  match args with
  | [_; LFiles files] =>
      Ok (map (fun file => wav_to_spectrogram spectrogram fs [LFile file]) files)
  | _ => Raise TypeError
  end.

Definition lazy_load_files {S : Type} (spectrogram : list Z -> Z -> S)
  (fs : FileSystem) : list loader_arg -> result (list (result S)) :=
  call_loader lazy_load_files_params (lazy_load_files_body spectrogram fs).

(** An annotation file that exists and is empty, with its recording. *)
Definition fs_empty_labels : FileSystem :=
  mkFS (fun p => if String.eqb p "data/raw/e_labels.txt" then Some [] else None)
       (fun p => if String.eqb p "data/raw/e.wav"
                 then Ok (8, [3; 1; 4])
                 else Raise FileNotFoundError)
       (String.eqb "data/phonemes").

(** The annotation of a recording that is not there. *)
Definition fs_no_wave : FileSystem :=
  mkFS (fun p => if String.eqb p "data/raw/a_labels.txt"
                 then Some (map line_of [mkInterval 0.10 0.15 "ah_S"])
                 else None)
       (fun _ => Raise FileNotFoundError)
       (String.eqb "data/phonemes").

(** A recording of one sample, shorter than any of its frames. *)
Definition fs_short : FileSystem :=
  mkFS (fun p => if String.eqb p "data/raw/a_labels.txt"
                 then Some (map line_of [mkInterval 0.10 0.15 "ah_S"])
                 else None)
       (fun p => if String.eqb p "data/raw/a.wav"
                 then Ok (8, [3])
                 else Raise FileNotFoundError)
       (String.eqb "data/phonemes").

(** ** Arithmetic of the primitives *)

(** Divisions by the constants of the notebook, as multiplications. *)
Ltac qdiv_consts :=
  unfold Qdiv in *;
  change (/ 250)%Q with (1 # 250)%Q in *;
  change (/ 1000)%Q with (1 # 1000)%Q in *;
  change (/ 50)%Q with (1 # 50)%Q in *.

Lemma py_int_whole (t : Q) (n : Z) : (t == inject_Z n)%Q -> Py.py_int t = n.
Proof.
  destruct t as [a b]; unfold Qeq, Py.py_int; simpl; intros H.
  rewrite Z.mul_1_r in H; subst a.
  apply Z.quot_mul; discriminate.
Qed.

Lemma padded_whole (t : Q) (n : Z) :
  (t == inject_Z n)%Q -> get_padded_last_timestamp t = t.
Proof.
  intros H; unfold get_padded_last_timestamp.
  rewrite (py_int_whole t n H).
  assert (E : Qeq_bool ((t - inject_Z n) * 1000)%Q 0 = true).
  { apply Qeq_bool_iff. rewrite H. ring. }
  now rewrite E.
Qed.

Lemma range_from_length (fuel : nat) :
  forall i stop step,
    0 < step -> stop - i <= Z.of_nat fuel ->
    List.length (Py.range_from fuel i stop step)
    = Z.to_nat ((stop - i + step - 1) / step).
Proof.
  induction fuel as [|fuel IH]; intros i stop step Hs Hf.
  - simpl. assert ((stop - i + step - 1) / step <= 0).
    { assert ((stop - i + step - 1) / step < 1); [|lia].
      apply Z.div_lt_upper_bound; lia. }
    simpl; lia.
  - cbn [Py.range_from]. destruct (Z.ltb_spec i stop) as [Hlt|Hge].
    + cbn [List.length]. rewrite IH by lia.
      replace (stop - i + step - 1) with ((stop - (i + step) + step - 1) + 1 * step) by ring.
      rewrite Z.div_add by lia.
      assert (0 <= (stop - (i + step) + step - 1) / step).
      { apply Z.div_pos; lia. }
      lia.
    + assert ((stop - i + step - 1) / step <= 0).
      { assert ((stop - i + step - 1) / step < 1); [|lia].
        apply Z.div_lt_upper_bound; lia. }
      simpl; lia.
Qed.

Lemma range_from_nth (fuel : nat) :
  forall i stop step k,
    (k < List.length (Py.range_from fuel i stop step))%nat ->
    nth_error (Py.range_from fuel i stop step) k = Some (i + Z.of_nat k * step).
Proof.
  induction fuel as [|fuel IH]; intros i stop step k Hk.
  - simpl in Hk; lia.
  - cbn [Py.range_from] in *. destruct (i <? stop).
    + destruct k as [|k].
      * simpl. f_equal; lia.
      * cbn [nth_error]. cbn [List.length] in Hk.
        rewrite IH by lia. f_equal; lia.
    + simpl in Hk; lia.
Qed.

(** The timeline has ceil(p / WINDOW) frames for a loop bound [p >= 0]. *)
Lemma range_window_length (p : Z) :
  List.length (Py.range 0 p WINDOW) = Z.to_nat ((p + WINDOW - 1) / WINDOW).
Proof.
  unfold Py.range. rewrite range_from_length.
  - now rewrite Z.sub_0_r.
  - reflexivity.
  - lia.
Qed.

Lemma range_window_nth (p : Z) (k : nat) :
  (k < List.length (Py.range 0 p WINDOW))%nat ->
  nth_error (Py.range 0 p WINDOW) k = Some (Z.of_nat k * WINDOW).
Proof.
  intros H; unfold Py.range in *. now rewrite range_from_nth.
Qed.

(** A non-empty annotation always yields a timeline. *)
Lemma build_timeline_total (iv : Interval) (ivs : list Interval) :
  exists tl, build_timeline (iv :: ivs) = Ok tl.
Proof. unfold build_timeline, padded_last_timestamp, bind. eauto. Qed.

Lemma build_timeline_frames (ivs : list Interval) (tl : list Frame) :
  build_timeline ivs = Ok tl ->
  exists p, padded_last_timestamp ivs = Ok p /\
            tl = map (frame_at ivs) (Py.range 0 p WINDOW).
Proof.
  unfold build_timeline, bind. destruct (padded_last_timestamp ivs) as [p|e].
  - intros [= <-]. eauto.
  - discriminate.
Qed.

(** Frame count and stride of every timeline. *)
Lemma timeline_length_stride (ivs : list Interval) (tl : list Frame) :
  build_timeline ivs = Ok tl ->
  exists p, padded_last_timestamp ivs = Ok p /\
    List.length tl = Z.to_nat ((p + WINDOW - 1) / WINDOW) /\
    forall k f g, nth_error tl k = Some f -> nth_error tl (S k) = Some g ->
                  (start g - start f == inject_Z WINDOW / 1000)%Q.
Proof.
  intros H. destruct (build_timeline_frames _ _ H) as (p & Hp & ->).
  exists p; split; [exact Hp|split].
  - now rewrite length_map, range_window_length.
  - intros k f g Hf Hg.
    rewrite nth_error_map in Hf, Hg.
    assert (Hk : (S k < List.length (Py.range 0 p WINDOW))%nat).
    { apply nth_error_Some. destruct (nth_error (Py.range 0 p WINDOW) (S k)); [discriminate|discriminate Hg]. }
    assert (Ef : nth_error (Py.range 0 p WINDOW) k = Some (Z.of_nat k * WINDOW))
      by (apply range_window_nth; lia).
    assert (Eg : nth_error (Py.range 0 p WINDOW) (S k)
                 = Some (Z.of_nat k * WINDOW + WINDOW)).
    { rewrite range_window_nth by lia. f_equal. lia. }
    rewrite Ef in Hf. rewrite Eg in Hg.
    cbn [option_map] in Hf, Hg. injection Hf as <-. injection Hg as <-.
    cbn [start frame_at]. rewrite inject_Z_plus. field.
Qed.

(** ** Frame timeline: theorems *)

Lemma scan_intervals_prefix (end_time : Q) (ivs : list Interval) :
  forall sym,
    scan_intervals end_time ivs sym
    = match last_phoneme (qualifying_prefix end_time ivs) with
      | Some p => Some p
      | None => sym
      end.
Proof.
  induction ivs as [|iv rest IH]; intros sym; cbn [scan_intervals qualifying_prefix].
  - reflexivity.
  - unfold qualifies at 1. destruct (Qle_bool (iv_end iv) end_time); cbn [negb].
    + rewrite IH. cbn [last_phoneme].
      now destruct (last_phoneme (qualifying_prefix end_time rest)).
    + reflexivity.
Qed.

Lemma sorted_prefix_is_filter (end_time : Q) (ivs : list Interval) :
  ends_sorted ivs ->
  qualifying_prefix end_time ivs = filter (qualifies end_time) ivs.
Proof.
  induction ivs as [|iv rest IH]; intros Hs; cbn [qualifying_prefix filter].
  - reflexivity.
  - destruct Hs as [Hle Hs]. destruct (qualifies end_time iv) eqn:Hq.
    + now rewrite IH.
    + symmetry. clear IH Hs. induction rest as [|iv' rest IH]; [reflexivity|].
      cbn [filter]. assert (Hq' : qualifies end_time iv' = false).
      { destruct (qualifies end_time iv') eqn:E; [|reflexivity].
        unfold qualifies in *. apply Qle_bool_iff in E.
        assert (Qle_bool (iv_end iv) end_time = true); [|congruence].
        apply Qle_bool_iff. eapply Qle_trans; [apply Hle; now left|exact E]. }
      rewrite Hq'. apply IH. intros iv'' Hin. apply Hle. now right.
Qed.

Lemma no_qualifying_prefix_nil (end_time : Q) (ivs : list Interval) :
  (forall iv, In iv ivs -> qualifies end_time iv = false) ->
  qualifying_prefix end_time ivs = [].
Proof.
  destruct ivs as [|iv rest]; intros H; cbn [qualifying_prefix]; [reflexivity|].
  now rewrite (H iv (or_introl eq_refl)).
Qed.

(** C3, as stated, fails on [unsorted_ends]: for the frame [0, 250ms) the
    last interval that ends within the frame is "c", but the loop breaks
    at "b" and labels the frame "a". *)
Lemma C3_last_qualifying_counterexample :
  phoneme (frame_at unsorted_ends 0) = "a"%string /\
  label_by_last_qualifying (end_ (frame_at unsorted_ends 0)) unsorted_ends = "c"%string /\
  phoneme (frame_at unsorted_ends 0)
  <> label_by_last_qualifying (end_ (frame_at unsorted_ends 0)) unsorted_ends.
Proof. repeat split; try reflexivity. vm_compute. discriminate. Qed.

(** C3, amended: for every frame window and interval list, the label is the
    phoneme of the last interval before the first one (in input order)
    whose end exceeds the frame's end, or "SIL" when there is none or that
    phoneme is empty; when the ends are in non-decreasing order this is the
    last interval of the list whose end does not exceed the frame's end;
    and when no interval qualifies the label is "SIL". *)
Theorem C3_label_of_qualifying_prefix (ivs : list Interval) (i : Z) :
  let f := frame_at ivs i in
  phoneme f = or_SIL (last_phoneme (qualifying_prefix (end_ f) ivs)) /\
  (ends_sorted ivs -> phoneme f = or_SIL (last_qualifying (end_ f) ivs)) /\
  ((forall iv, In iv ivs -> qualifies (end_ f) iv = false) -> phoneme f = "SIL"%string).
Proof.
  cbn zeta. cbn [phoneme end_ frame_at].
  rewrite scan_intervals_prefix.
  set (e := (inject_Z (i + FRAME_SIZE) / 1000)%Q).
  assert (E : match last_phoneme (qualifying_prefix e ivs) with
              | Some p => Some p
              | None => None
              end = last_phoneme (qualifying_prefix e ivs))
    by now destruct (last_phoneme (qualifying_prefix e ivs)).
  rewrite E. split; [reflexivity|split].
  - intros Hs. unfold last_qualifying. now rewrite sorted_prefix_is_filter.
  - intros Hn. now rewrite no_qualifying_prefix_nil.
Qed.

Lemma sorted_ends_sorted : ends_sorted sorted_ends.
Proof.
  cbn [ends_sorted sorted_ends]. repeat split; intros iv' Hin; cbn [In] in Hin;
    repeat (destruct Hin as [<-|Hin]; [vm_compute; discriminate|]); contradiction.
Defined.

Lemma late_interval_none_qualifies :
  forall iv, In iv late_interval -> qualifies (end_ (frame_at late_interval 0)) iv = false.
Proof. intros iv [<-|[]]. reflexivity. Defined.

Lemma C3_label_witness :
  (ends_sorted sorted_ends /\ phoneme (frame_at sorted_ends 0) = "b"%string) /\
  ((forall iv, In iv late_interval ->
               qualifies (end_ (frame_at late_interval 0)) iv = false) /\
   phoneme (frame_at late_interval 0) = "SIL"%string).
Proof.
  split; split.
  - exact sorted_ends_sorted.
  - exact (proj1 (proj2 (C3_label_of_qualifying_prefix sorted_ends 0)) sorted_ends_sorted).
  - exact late_interval_none_qualifies.
  - exact (proj2 (proj2 (C3_label_of_qualifying_prefix late_interval 0))
             late_interval_none_qualifies).
Defined.

(** C9: the scenario of one interval (0.10, 0.15, "ah_S").  The remainder
    is 150 ms, the padding 1, the padded end 250 ms, and the timeline has
    the five frames that start at 0, 50, 100, 150 and 200 ms, each
    [FRAME_SIZE] long. *)
Theorem C9_single_interval_scenario :
  let ivs := [mkInterval 0.10 0.15 "ah_S"] in
  ((0.15 - inject_Z (Py.py_int 0.15)) * 1000 == 150)%Q /\
  (Py.floordiv 150 (inject_Z FRAME_SIZE) + 1 == 1)%Q /\
  (get_padded_last_timestamp 0.15 == 250)%Q /\
  padded_last_timestamp ivs = Ok 250 /\
  exists tl,
    build_timeline ivs = Ok tl /\
    List.length tl = 5%nat /\
    Forall2 (fun f ms => (start f * 1000 == inject_Z ms)%Q) tl [0; 50; 100; 150; 200] /\
    Forall (fun f => ((end_ f - start f) * 1000 == inject_Z FRAME_SIZE)%Q) tl.
Proof.
  cbn zeta. repeat split; try reflexivity.
  eexists. split; [vm_compute; reflexivity|].
  split; [reflexivity|].
  split; repeat constructor.
Qed.

(** C2 on the code: when the last end is a whole number [n >= 1] of
    seconds, [get_padded_last_timestamp] returns it as it is, in seconds,
    and the loop takes it for milliseconds: the timeline has
    ceil(n / WINDOW) frames, fewer than the 1000 n / WINDOW frames that
    n seconds of audio hold. *)
Theorem C2_whole_second_end_taken_as_milliseconds
  (iv : Interval) (rest : list Interval) (n : Z) :
  1 <= n ->
  (last_end iv rest == inject_Z n)%Q ->
  get_padded_last_timestamp (last_end iv rest) = last_end iv rest /\
  padded_last_timestamp (iv :: rest) = Ok n /\
  exists tl,
    build_timeline (iv :: rest) = Ok tl /\
    List.length tl = Z.to_nat ((n + WINDOW - 1) / WINDOW) /\
    (List.length tl < Z.to_nat (1000 * n / WINDOW))%nat.
Proof.
  intros Hn Hw.
  assert (Hp : padded_last_timestamp (iv :: rest) = Ok n).
  { cbn [padded_last_timestamp]. rewrite (padded_whole _ n Hw).
    now rewrite (py_int_whole _ n Hw). }
  split; [exact (padded_whole _ n Hw)|]. split; [exact Hp|].
  destruct (build_timeline_total iv rest) as [tl Htl]. exists tl.
  destruct (timeline_length_stride _ _ Htl) as (p & Hp' & Hlen & _).
  rewrite Hp in Hp'. injection Hp' as <-.
  split; [exact Htl|]. split; [exact Hlen|].
  rewrite Hlen. unfold WINDOW.
  assert ((n + 50 - 1) / 50 <= n).
  { assert ((n + 50 - 1) / 50 < n + 1); [|lia]. apply Z.div_lt_upper_bound; lia. }
  assert (20 * n <= 1000 * n / 50).
  { apply Z.div_le_lower_bound; lia. }
  assert (0 <= (n + 50 - 1) / 50) by (apply Z.div_pos; lia).
  lia.
Qed.

Lemma C2_whole_second_witness :
  1 <= 5 /\
  (last_end (mkInterval 4 5 "ah_S") [] == inject_Z 5)%Q /\
  padded_last_timestamp [mkInterval 4 5 "ah_S"] = Ok 5.
Proof.
  split; [lia|]. split; [reflexivity|].
  apply (C2_whole_second_end_taken_as_milliseconds (mkInterval 4 5 "ah_S") [] 5);
    [lia|reflexivity].
Defined.

(** The two branches of [get_padded_last_timestamp] side by side: an
    annotation that ends at 5 s gives one frame, one that ends at 4.999 s
    gives the hundred frames of 5000 ms. *)
Example whole_second_against_sibling_branch :
  build_timeline [mkInterval 4 5 "ah_S"] = Ok [frame_at [mkInterval 4 5 "ah_S"] 0] /\
  phoneme (frame_at [mkInterval 4 5 "ah_S"] 0) = "SIL"%string /\
  padded_last_timestamp [mkInterval 4 4.999 "ah_S"] = Ok 5000 /\
  (exists tl, build_timeline [mkInterval 4 4.999 "ah_S"] = Ok tl /\ List.length tl = 100%nat).
Proof.
  repeat split. eexists; split; [vm_compute; reflexivity|reflexivity].
Qed.

(** ** Partitioned stream: theorems *)

Lemma clamp_index_in_range (len i : Z) :
  0 <= i <= len -> Py.clamp_index len i = i.
Proof.
  intros H; unfold Py.clamp_index.
  destruct (Z.ltb_spec i 0); lia.
Qed.

Lemma slice_in_range {A : Type} (l : list A) (s e : Z) :
  0 <= s <= e -> e <= Z.of_nat (List.length l) ->
  Py.slice l s e = firstn (Z.to_nat (e - s)) (skipn (Z.to_nat s) l).
Proof.
  intros Hs He; unfold Py.slice.
  now rewrite !clamp_index_in_range by lia.
Qed.

Lemma slice_length {A : Type} (l : list A) (s e : Z) :
  0 <= s <= e -> e <= Z.of_nat (List.length l) ->
  Z.of_nat (List.length (Py.slice l s e)) = e - s.
Proof.
  intros Hs He. rewrite slice_in_range by lia.
  rewrite length_firstn, length_skipn. lia.
Qed.

Lemma slice_nth {A : Type} (l : list A) (s e : Z) (j : nat) :
  0 <= s <= e -> e <= Z.of_nat (List.length l) ->
  Z.of_nat j < e - s ->
  nth_error (Py.slice l s e) j = nth_error l (Z.to_nat s + j).
Proof.
  intros Hs He Hj. rewrite slice_in_range by lia.
  rewrite nth_error_firstn.
  destruct (Nat.ltb_spec j (Z.to_nat (e - s))); [|lia].
  now rewrite nth_error_skipn.
Qed.

Lemma partition_bounds (len count id : Z) :
  0 <= len -> 1 <= count -> 0 <= id < count ->
  0 <= id * (len / count) /\
  id * (len / count) + len / count <= count * (len / count) /\
  count * (len / count) <= len.
Proof.
  intros Hl Hc Hi.
  assert (0 <= len / count) by (apply Z.div_pos; lia).
  assert (count * (len / count) <= len) by (apply Z.mul_div_le; lia).
  repeat split; nia.
Qed.

(** C4: an attached worker [id] of [count] gets the contiguous range
    [id * workLoad, id * workLoad + workLoad) with
    workLoad = len // count; the slice holds exactly the items at these
    indices; the range lies within [0, len); the ranges of two distinct ids
    are disjoint; and when len is not a multiple of count the
    len - count * workLoad trailing indices are in no worker's range. *)
Theorem C4_attached_partition
  (ds : Dataset) (count wid : Z) :
  batch_size ds > 0 -> 1 <= count -> 0 <= wid < count ->
  let len := Z.of_nat (List.length (files ds)) in
  let work_load := len / count in
  let s := wid * work_load in
  let e := wid * work_load + work_load in
  index_range ds (Some (mkWorkerInfo wid count)) = Ok (s, e) /\
  (0 <= s /\ s <= e /\ e <= len) /\
  Z.of_nat (List.length (Py.slice (files ds) s e)) = work_load /\
  (forall j, Z.of_nat j < work_load ->
             nth_error (Py.slice (files ds) s e) j
             = nth_error (files ds) (Z.to_nat s + j)) /\
  (forall id' k, 0 <= id' < count -> id' <> wid ->
                 ~ (in_partition len count wid k /\ in_partition len count id' k)) /\
  (len mod count <> 0 ->
   0 < len - count * work_load /\
   forall k, count * work_load <= k < len ->
             forall id', 0 <= id' < count -> ~ in_partition len count id' k).
Proof.
  intros Hb Hc Hi len work_load s e.
  assert (Hl : 0 <= len) by apply Nat2Z.is_nonneg.
  destruct (partition_bounds len count wid Hl Hc Hi) as (B1 & B2 & B3).
  fold work_load in B1, B2, B3.
  assert (Hw : 0 <= work_load) by (apply Z.div_pos; lia).
  split.
  { unfold index_range. destruct (Z.eqb_spec (batch_size ds) 0); [lia|].
    cbn [num_workers id]. destruct (Z.eqb_spec count 0); [lia|]. reflexivity. }
  split; [unfold s, e; lia|].
  split; [unfold s, e; rewrite slice_length; fold len; lia|].
  split; [intros j Hj; unfold s, e; apply slice_nth; fold len; lia|].
  split.
  { intros id' k Hi' Hne [[H1 H2] [H3 H4]]. fold work_load in H1, H2, H3, H4. nia. }
  intros Hm. split.
  { pose proof (Z.div_mod len count ltac:(lia)) as E.
    pose proof (Z.mod_pos_bound len count ltac:(lia)).
    fold work_load in E. lia. }
  intros k Hk id' Hi' [H1 H2]. fold work_load in H1, H2. nia.
Qed.

Lemma C4_attached_partition_witness :
  (batch_size (mkDataset ten 5) > 0 /\ 1 <= 3 /\ 0 <= 1 < 3) /\
  index_range (mkDataset ten 5) (Some (mkWorkerInfo 1 3)) = Ok (3, 6).
Proof.
  split; [repeat split; lia|].
  apply (C4_attached_partition (mkDataset ten 5) 3 1); [reflexivity|lia|lia].
Defined.

(** Every tuple of [grouper] has [n] slots. *)
Lemma take_fill_length {A : Type} (n : nat) :
  forall l : list A, List.length (fst (take_fill n l)) = n.
Proof.
  induction n as [|n IH]; intros l; cbn [take_fill]; [reflexivity|].
  destruct l as [|x l'].
  - specialize (IH []). destruct (take_fill n []) as [b r]. cbn in *. now f_equal.
  - specialize (IH l'). destruct (take_fill n l') as [b r]. cbn in *. now f_equal.
Qed.

(** X1: every tuple that [grouper] yields has exactly [n] slots, the short
    last one included. *)
Lemma grouper_batch_length {A : Type} (l : list A) (n : Z) (b : list (option A)) :
  In b (grouper l n) -> Z.of_nat (List.length b) = n.
Proof.
  unfold grouper. destruct (Z.to_nat n) as [|m] eqn:E; [contradiction|].
  assert (Hn : n = Z.of_nat (S m)) by lia. rewrite Hn. clear E Hn.
  generalize (List.length l) at 1. intros fuel. revert l.
  induction fuel as [|fuel IH]; intros l Hin; cbn [grouper_from] in Hin.
  - contradiction.
  - destruct l as [|x l']; [contradiction|].
    pose proof (take_fill_length (S m) (x :: l')) as Hl.
    destruct (take_fill (S m) (x :: l')) as [b' r]. cbn [fst] in Hl.
    destruct Hin as [<-|Hin]; [now rewrite Hl|]. now apply IH in Hin.
Qed.

Lemma grouper_batch_length_witness :
  In [Some "i6"; None; None]%string (grouper seven 3) /\
  Z.of_nat (List.length [Some "i6"%string; None; None]) = 3.
Proof.
  split; [right; right; left; reflexivity|].
  apply (grouper_batch_length seven 3). right; right; left; reflexivity.
Defined.

(** A dataset that [__init__] accepts has a batch size above zero and at
    least one file. *)
Lemma init_ok (found : list string) (bs : Z) (ds : Dataset) :
  init found bs = Ok ds -> ds = mkDataset found bs /\ bs > 0 /\ found <> [].
Proof.
  unfold init. destruct found as [|f found']; [discriminate|].
  destruct (bs >? 0) eqn:E; [|discriminate].
  intros [= <-]. repeat split; [lia|discriminate].
Qed.

(** C10: on every dataset that [__init__] accepts, and whatever the worker
    (none, or one of a positive number of workers), [__iter__] raises
    [TypeError]: the grouped files are computed, then [stream_batch], a
    function of two parameters, is called with one argument.  No batch is
    ever returned. *)
Theorem C10_iter_raises_TypeError
  (found : list string) (bs : Z) (ds : Dataset) (worker_info : option WorkerInfo) :
  init found bs = Ok ds ->
  (forall w, worker_info = Some w -> num_workers w <> 0) ->
  List.length stream_batch_params = 2%nat /\
  (exists g, grouped_files ds worker_info = Ok g /\
             stream_batch [PGrouped g] = Raise TypeError) /\
  iter ds worker_info = Raise TypeError.
Proof.
  intros Hinit Hw. apply init_ok in Hinit as (-> & Hb & _).
  split; [reflexivity|].
  assert (Hg : exists g, grouped_files (mkDataset found bs) worker_info = Ok g).
  { unfold grouped_files, index_range; cbn [batch_size files].
    destruct (Z.eqb_spec bs 0); [lia|].
    destruct worker_info as [w|]; [|cbn [bind]; eauto].
    destruct (Z.eqb_spec (num_workers w) 0) as [E|_]; [now apply Hw in E|].
    cbn [bind]; eauto. }
  destruct Hg as [g Hg]. split.
  - exists g; split; [exact Hg|reflexivity].
  - unfold iter. rewrite Hg. reflexivity.
Qed.

Lemma C10_iter_witness :
  init seven 3 = Ok (mkDataset seven 3) /\
  iter (mkDataset seven 3) None = Raise TypeError.
Proof.
  split; [reflexivity|].
  apply (C10_iter_raises_TypeError seven 3 (mkDataset seven 3) None);
    [reflexivity|discriminate].
Defined.

(** C1 on the code: for seven files and a batch size of 3 the unattached
    range is [0, ceil(7/3)) = [0, 3), a count of batches used as a count of
    files, so only the first three files are grouped, into one batch; the
    three batches of the whole list are what [grouper] gives on all seven
    files.  (The call of [stream_batch] then raises, as for every
    dataset.) *)
Theorem C1_unattached_range_is_batch_count :
  init seven 3 = Ok (mkDataset seven 3) /\
  index_range (mkDataset seven 3) None = Ok (0, 3) /\
  grouped_files (mkDataset seven 3) None
  = Ok [[Some "i0"; Some "i1"; Some "i2"]]%string /\
  grouper seven 3
  = [[Some "i0"; Some "i1"; Some "i2"];
     [Some "i3"; Some "i4"; Some "i5"];
     [Some "i6"; None; None]]%string /\
  iter (mkDataset seven 3) None = Raise TypeError.
Proof. repeat split. Qed.

(** ** Annotation files: lines with three fields and a finite end *)

Lemma columns_line_of (iv : Interval) (rest : list Interval) :
  columns (map line_of (iv :: rest)) = 3%nat.
Proof.
  cbn [columns map line_of l_fields]. rewrite map_map. cbn [l_fields].
  induction rest as [|iv' rest IH]; [reflexivity|exact IH].
Qed.

Lemma scan_lines_line_of (end_time : Q) (ivs : list Interval) :
  forall sym,
    scan_lines end_time (map line_of ivs) sym = Ok (scan_intervals end_time ivs sym).
Proof.
  induction ivs as [|iv rest IH]; intros sym; [reflexivity|].
  cbn [map scan_lines scan_intervals line_of float_field l_end l_phoneme bind float_gt].
  destruct (negb (Qle_bool (iv_end iv) end_time)); [reflexivity|apply IH].
Qed.

Lemma frames_of_line_of (ivs : list Interval) (indices : list Z) :
  frames_of (map line_of ivs) indices = Ok (map (frame_at ivs) indices).
Proof.
  induction indices as [|i rest IH]; [reflexivity|].
  cbn [frames_of map]. rewrite scan_lines_line_of, IH. reflexivity.
Qed.

Lemma last_line_of (iv : Interval) (rest : list Interval) :
  last (map line_of rest) (line_of iv) = line_of (last rest iv).
Proof.
  revert iv. induction rest as [|iv' rest IH]; intros iv; [reflexivity|].
  cbn [map]. destruct rest as [|iv'' rest]; [reflexivity|].
  change (last (line_of iv' :: map line_of (iv'' :: rest)) (line_of iv))
    with (last (map line_of (iv'' :: rest)) (line_of iv)).
  change (last (iv' :: iv'' :: rest) iv) with (last (iv'' :: rest) iv).
  apply IH.
Qed.

(** On lines that all have three fields and a finite end the body of
    [get_phoneme_timestamps] is [build_timeline]. *)
Lemma timeline_of_lines_line_of (ivs : list Interval) :
  timeline_of_lines (map line_of ivs) = build_timeline ivs.
Proof.
  destruct ivs as [|iv rest]; [reflexivity|].
  unfold timeline_of_lines, unpack3. rewrite columns_line_of.
  cbn [Nat.eqb bind map]. rewrite last_line_of.
  cbn [float_field line_of l_end bind padded_of].
  rewrite (frames_of_line_of (iv :: rest)). reflexivity.
Qed.

(** ** Segment writer: theorems *)

Lemma pad_data_length (data : list Z) (data_size : Z) :
  Z.of_nat (List.length (pad_data data data_size))
  = Z.max (Z.of_nat (List.length data)) data_size.
Proof.
  unfold pad_data. destruct (Z.ltb_spec (Z.of_nat (List.length data)) data_size).
  - rewrite length_app, repeat_length. lia.
  - lia.
Qed.

Lemma pad_data_short (data : list Z) (data_size : Z) :
  Z.of_nat (List.length data) < data_size ->
  pad_data data data_size
  = data ++ repeat 0 (Z.to_nat (data_size - Z.of_nat (List.length data))) /\
  Z.of_nat (List.length (pad_data data data_size)) = data_size.
Proof.
  intros H. rewrite pad_data_length. unfold pad_data.
  destruct (Z.ltb_spec (Z.of_nat (List.length data)) data_size); [|lia].
  split; [reflexivity|lia].
Qed.

Lemma pad_data_long (data : list Z) (data_size : Z) :
  data_size <= Z.of_nat (List.length data) -> pad_data data data_size = data.
Proof.
  intros H. unfold pad_data.
  destruct (Z.ltb_spec (Z.of_nat (List.length data)) data_size); [lia|reflexivity].
Qed.

Lemma data_size_of_quot (sr : Z) : data_size_of sr = Z.quot (sr * FRAME_SIZE) 1000.
Proof.
  unfold data_size_of, Py.py_int, Qdiv, Qmult, Qinv, inject_Z.
  cbn [Qnum Qden]. rewrite Z.mul_1_r. reflexivity.
Qed.

(** What one write of the loop is made of. *)
Lemma write_frame_ok (fs : FileSystem) (audio_name : string) (sr : Z) (wav : list Z)
  (data_size : Z) (i : nat) (f : Frame) (w : WavWrite) :
  write_frame fs audio_name sr wav data_size i f = Ok w ->
  exists s e,
    sample_index (start f) sr = Ok s /\
    sample_index (end_ f) sr = Ok e /\
    dirs fs (Py.dir_of (segment_path audio_name (phoneme f) (i + 1))) = true /\
    w = mkWrite (segment_path audio_name (phoneme f) (i + 1)) sr
          (pad_data (Py.slice wav s e) data_size).
Proof.
  unfold write_frame, wavfile_write, bind.
  destruct (sample_index (start f) sr) as [s|]; [|discriminate].
  destruct (sample_index (end_ f) sr) as [e|]; [|discriminate].
  destruct (dirs fs (Py.dir_of (segment_path audio_name (phoneme f) (i + 1)))) eqn:Ed;
    [|discriminate].
  intros [= <-]. exists s, e. auto.
Qed.

(** Every write of the loop comes from one frame of the timeline, at its
    position in the enumeration, and that frame is not out of
    vocabulary. *)
Lemma write_frames_in (fs : FileSystem) (audio_name : string) (sr : Z) (wav : list Z)
  (data_size : Z) (frames : list Frame) :
  forall i w,
    In w (fst (write_frames fs audio_name sr wav data_size i frames)) ->
    exists k f s e,
      nth_error frames k = Some f /\
      Py.contains "oov" (phoneme f) = false /\
      sample_index (start f) sr = Ok s /\
      sample_index (end_ f) sr = Ok e /\
      w = mkWrite (segment_path audio_name (phoneme f) (i + k + 1)) sr
            (pad_data (Py.slice wav s e) data_size).
Proof.
  induction frames as [|f rest IH]; intros i w Hin; cbn [write_frames] in Hin.
  - contradiction.
  - destruct (Py.contains "oov" (phoneme f)) eqn:Eo.
    + apply IH in Hin as (k & g & s & e & Hk & Ho & Hs & He & ->).
      exists (S k), g, s, e. repeat split; try assumption.
      now replace (i + S k + 1)%nat with (S i + k + 1)%nat by lia.
    + destruct (write_frame fs audio_name sr wav data_size i f) as [w0|x] eqn:Ew;
        [|contradiction].
      cbn [fst] in Hin. destruct Hin as [<-|Hin].
      * apply write_frame_ok in Ew as (s & e & Hs & He & _ & ->).
        exists 0%nat, f, s, e. repeat split; try assumption.
        now rewrite Nat.add_0_r.
      * apply IH in Hin as (k & g & s & e & Hk & Ho & Hs & He & ->).
        exists (S k), g, s, e. repeat split; try assumption.
        now replace (i + S k + 1)%nat with (S i + k + 1)%nat by lia.
Qed.

Lemma write_frames_count_le (fs : FileSystem) (audio_name : string) (sr : Z)
  (wav : list Z) (data_size : Z) (frames : list Frame) :
  forall i,
    (List.length (fst (write_frames fs audio_name sr wav data_size i frames))
     <= List.length (filter (fun f => negb (Py.contains "oov" (phoneme f))) frames))%nat.
Proof.
  induction frames as [|f rest IH]; intros i; cbn [write_frames filter].
  - cbn. lia.
  - destruct (Py.contains "oov" (phoneme f)); cbn [negb]; [apply IH|].
    destruct (write_frame fs audio_name sr wav data_size i f); cbn [fst List.length].
    + specialize (IH (S i)). lia.
    + lia.
Qed.

(** What a run that returned went through. *)
Lemma save_phoneme_frames_ok (fs : FileSystem) (audio_path : string) (ws : list WavWrite) :
  save_phoneme_frames fs audio_path = Ok ws ->
  ws = [] \/
  exists tl sr wav,
    get_phoneme_timestamps fs (label_path_of (audio_name_of audio_path)) = Ok tl /\
    waves fs audio_path = Ok (sr, wav) /\
    ws = fst (write_frames fs (audio_name_of audio_path) sr wav (data_size_of sr) 0 tl).
Proof.
  unfold save_phoneme_frames.
  destruct (get_phoneme_timestamps fs (label_path_of (audio_name_of audio_path)))
    as [tl|e] eqn:Et.
  - unfold wavfile_read. destruct (waves fs audio_path) as [[sr wav]|e] eqn:Ew.
    + cbn [fst snd]. unfold catch_fnf.
      destruct (snd (write_frames fs (audio_name_of audio_path) sr wav
                       (data_size_of sr) 0 tl)) as [u|e].
      * intros [= <-]. right. exists tl, sr, wav. auto.
      * destruct e; try discriminate. intros [= <-]. right. exists tl, sr, wav. auto.
    + unfold catch_fnf. cbn [fst snd]. destruct e; try discriminate.
      intros [= <-]. now left.
  - unfold catch_fnf. cbn [fst snd]. destruct e; try discriminate.
    intros [= <-]. now left.
Qed.

(** C5, as stated, fails at 22255 Hz: the specification's frame length is
    round(5563.75) = 5564 samples, the code's [data_size] is
    int(5563.75) = 5563, and the segments of a one-sample recording are
    padded to 5563 samples, one less than [samplesPerFrame]. *)
Lemma C5_truncated_frame_length_counterexample :
  samples_per_frame_spec 22255 = 5564 /\
  data_size_of 22255 = 5563 /\
  exists ws w,
    save_phoneme_frames fs_22255 "data/raw/a.wav" = Ok ws /\
    nth_error ws 0 = Some w /\
    w_path w = "data/phonemes/a__ah_S__1.wav"%string /\
    Z.of_nat (List.length (w_data w)) = 5563 /\
    Z.of_nat (List.length (w_data w)) < samples_per_frame_spec 22255.
Proof.
  split; [reflexivity|]. split; [reflexivity|].
  eexists. eexists. split; [vm_compute; reflexivity|].
  split; [reflexivity|]. split; [reflexivity|]. split; vm_compute; reflexivity.
Qed.

(** C5, amended: every segment [save_phoneme_frames] writes holds at least
    [data_size = int(sr * FRAME_SIZE / 1000)] samples, the quotient
    truncated: it is the slice of its frame, followed by zeros up to
    exactly [data_size] samples when the slice is shorter.  Every write
    belongs to a frame of the timeline whose phoneme does not contain
    "oov", and there is at most one write per such frame. *)
Theorem C5_no_short_segment_no_oov
  (fs : FileSystem) (audio_path : string) (ws : list WavWrite) :
  save_phoneme_frames fs audio_path = Ok ws ->
  (forall w, In w ws ->
     exists tl sr wav k f s e,
       get_phoneme_timestamps fs (label_path_of (audio_name_of audio_path)) = Ok tl /\
       waves fs audio_path = Ok (sr, wav) /\
       nth_error tl k = Some f /\
       Py.contains "oov" (phoneme f) = false /\
       w_path w = segment_path (audio_name_of audio_path) (phoneme f) (k + 1) /\
       w_sr w = sr /\
       sample_index (start f) sr = Ok s /\
       sample_index (end_ f) sr = Ok e /\
       data_size_of sr = Z.quot (sr * FRAME_SIZE) 1000 /\
       data_size_of sr <= Z.of_nat (List.length (w_data w)) /\
       let data := Py.slice wav s e in
       (Z.of_nat (List.length data) < data_size_of sr ->
        w_data w
        = data ++ repeat 0 (Z.to_nat (data_size_of sr - Z.of_nat (List.length data))) /\
        Z.of_nat (List.length (w_data w)) = data_size_of sr) /\
       (data_size_of sr <= Z.of_nat (List.length data) -> w_data w = data)) /\
  (forall tl, get_phoneme_timestamps fs (label_path_of (audio_name_of audio_path)) = Ok tl ->
     (List.length ws
      <= List.length (filter (fun f => negb (Py.contains "oov" (phoneme f))) tl))%nat).
Proof.
  intros H. apply save_phoneme_frames_ok in H as [->|(tl & sr & wav & Et & Ew & ->)].
  - split; [intros w []|intros tl _; cbn; lia].
  - split.
    + intros w Hin.
      apply write_frames_in in Hin as (k & f & s & e & Hk & Ho & Hs & He & ->).
      exists tl, sr, wav, k, f, s, e. cbn [w_path w_sr w_data].
      repeat split; try assumption.
      * apply data_size_of_quot.
      * rewrite pad_data_length. lia.
      * now apply pad_data_short.
      * now apply pad_data_short.
      * apply pad_data_long.
    + intros tl' Et'. rewrite Et in Et'. injection Et' as <-.
      apply write_frames_count_le.
Qed.

Lemma C5_no_short_segment_witness :
  save_phoneme_frames fs_short "data/raw/a.wav"
  = Ok [mkWrite "data/phonemes/a__ah_S__1.wav" 8 [3; 0];
        mkWrite "data/phonemes/a__ah_S__2.wav" 8 [3; 0];
        mkWrite "data/phonemes/a__ah_S__3.wav" 8 [3; 0];
        mkWrite "data/phonemes/a__ah_S__4.wav" 8 [0; 0];
        mkWrite "data/phonemes/a__ah_S__5.wav" 8 [0; 0]] /\
  exists tl sr wav k f s e,
    get_phoneme_timestamps fs_short (label_path_of (audio_name_of "data/raw/a.wav")) = Ok tl /\
    waves fs_short "data/raw/a.wav" = Ok (sr, wav) /\
    nth_error tl k = Some f /\
    Py.contains "oov" (phoneme f) = false /\
    w_path (mkWrite "data/phonemes/a__ah_S__1.wav" 8 [3; 0])
    = segment_path (audio_name_of "data/raw/a.wav") (phoneme f) (k + 1) /\
    w_sr (mkWrite "data/phonemes/a__ah_S__1.wav" 8 [3; 0]) = sr /\
    sample_index (start f) sr = Ok s /\
    sample_index (end_ f) sr = Ok e /\
    data_size_of sr = Z.quot (sr * FRAME_SIZE) 1000 /\
    data_size_of sr
    <= Z.of_nat (List.length (w_data (mkWrite "data/phonemes/a__ah_S__1.wav" 8 [3; 0]))) /\
    let data := Py.slice wav s e in
    (Z.of_nat (List.length data) < data_size_of sr ->
     w_data (mkWrite "data/phonemes/a__ah_S__1.wav" 8 [3; 0])
     = data ++ repeat 0 (Z.to_nat (data_size_of sr - Z.of_nat (List.length data))) /\
     Z.of_nat (List.length (w_data (mkWrite "data/phonemes/a__ah_S__1.wav" 8 [3; 0])))
     = data_size_of sr) /\
    (data_size_of sr <= Z.of_nat (List.length data) ->
     w_data (mkWrite "data/phonemes/a__ah_S__1.wav" 8 [3; 0]) = data).
Proof.
  split; [vm_compute; reflexivity|].
  apply (proj1 (C5_no_short_segment_no_oov fs_short "data/raw/a.wav"
                  [mkWrite "data/phonemes/a__ah_S__1.wav" 8 [3; 0];
                   mkWrite "data/phonemes/a__ah_S__2.wav" 8 [3; 0];
                   mkWrite "data/phonemes/a__ah_S__3.wav" 8 [3; 0];
                   mkWrite "data/phonemes/a__ah_S__4.wav" 8 [0; 0];
                   mkWrite "data/phonemes/a__ah_S__5.wav" 8 [0; 0]]
                  ltac:(vm_compute; reflexivity))).
  left; reflexivity.
Defined.

(** C8: when the annotation file of a recording does not exist,
    [save_phoneme_frames] returns normally and writes nothing. *)
Theorem C8_missing_annotation_skipped (fs : FileSystem) (audio_path : string) :
  labels fs (label_path_of (audio_name_of audio_path)) = None ->
  get_phoneme_timestamps fs (label_path_of (audio_name_of audio_path))
  = Raise FileNotFoundError /\
  save_phoneme_frames fs audio_path = Ok [].
Proof.
  intros H. unfold save_phoneme_frames, get_phoneme_timestamps.
  rewrite H. split; reflexivity.
Qed.

Lemma C8_missing_annotation_witness :
  labels fs_oov (label_path_of (audio_name_of "data/raw/b.wav")) = None /\
  save_phoneme_frames fs_oov "data/raw/b.wav" = Ok [].
Proof.
  split; [reflexivity|].
  apply (C8_missing_annotation_skipped fs_oov "data/raw/b.wav"). reflexivity.
Defined.

(** ** Pool driver: theorems *)


(** C7 on the code: the run does not depend on the [data] (nor on the
    [fn]) it is given; the paths it hands to the pool are the global
    [audio_files].  With [audio_files = ["data/raw/a.wav"]] and
    [data = ["data/raw/b.wav"]] the recording processed is a.wav. *)
Theorem C7_driver_ignores_data :
  (forall audio_files cpu_count fs fn fn' data data' workers,
     mp__save_phoneme_frames audio_files cpu_count fs fn data workers
     = mp__save_phoneme_frames audio_files cpu_count fs fn' data' workers) /\
  (forall audio_files cpu_count fs fn data workers run,
     mp__save_phoneme_frames audio_files cpu_count fs fn data workers = Ok run ->
     tasks run = audio_files /\
     outcomes run = map (save_phoneme_frames fs) audio_files /\
     pool_size run = workers_or workers cpu_count) /\
  mp__save_phoneme_frames ["data/raw/a.wav"%string] 4 fs_oov
    (save_phoneme_frames fs_oov) ["data/raw/b.wav"%string] None
  = Ok (mkPoolRun 4 ["data/raw/a.wav"%string]
          [Ok [mkWrite "data/phonemes/a__ah_S__1.wav" 8 [3; 1]]]).
Proof.
  split; [reflexivity|]. split; [|vm_compute; reflexivity].
  intros audio_files cpu_count fs fn data workers run.
  unfold mp__save_phoneme_frames, Pool, bind.
  destruct (workers_or workers cpu_count <? 1); [discriminate|].
  destruct (first_raised (map (save_phoneme_frames fs) audio_files)); [discriminate|].
  intros [= <-]. repeat split.
Qed.

Lemma C7_driver_witness :
  mp__save_phoneme_frames ["data/raw/a.wav"%string] 4 fs_oov
    (save_phoneme_frames fs_oov) ["data/raw/b.wav"%string] (Some 2)
  = Ok (mkPoolRun 2 ["data/raw/a.wav"%string]
          [Ok [mkWrite "data/phonemes/a__ah_S__1.wav" 8 [3; 1]]]) /\
  tasks (mkPoolRun 2 ["data/raw/a.wav"%string]
           [Ok [mkWrite "data/phonemes/a__ah_S__1.wav" 8 [3; 1]]])
  = ["data/raw/a.wav"%string].
Proof.
  split; [vm_compute; reflexivity|].
  apply (proj1 (proj2 C7_driver_ignores_data) ["data/raw/a.wav"%string] 4 fs_oov
           (save_phoneme_frames fs_oov) ["data/raw/b.wav"%string] (Some 2)).
  vm_compute; reflexivity.
Defined.

(** ** Sample boundaries: truncation, not rounding *)

(** The sample positions are those of the binary64 product: 0.35 * 44100 is
    15434.999999999998 as a double and is truncated to 15434, where the
    exact product is 15435. *)
Example sample_index_is_binary64 :
  sample_index (inject_Z 350 / 1000) 44100 = Ok 15434 /\
  Py.py_int (inject_Z 350 / 1000 * inject_Z 44100)%Q = 15435.
Proof. split; reflexivity. Qed.

(** C6, as stated, fails at 11025 Hz on the frame that starts at 150 ms:
    its start is 1653.75 samples, the code takes 1653, which is neither a
    nearest integer nor [round(1653.75) = 1654], and the segment written
    for it holds 2757 samples where [samplesPerFrame] is 2756. *)
Lemma C6_rounding_counterexample :
  (start (frame_at [mkInterval 0.10 0.15 "ah_S"] 150) * inject_Z 11025 == 1653.75)%Q /\
  sample_index (start (frame_at [mkInterval 0.10 0.15 "ah_S"] 150)) 11025 = Ok 1653 /\
  py_round (start (frame_at [mkInterval 0.10 0.15 "ah_S"] 150) * inject_Z 11025) = 1654 /\
  ~ is_nearest (start (frame_at [mkInterval 0.10 0.15 "ah_S"] 150) * inject_Z 11025) 1653 /\
  samples_per_frame_spec 11025 = 2756 /\
  data_size_of 11025 = 2756 /\
  exists ws w,
    save_phoneme_frames fs_11025 "data/raw/a.wav" = Ok ws /\
    nth_error ws 3 = Some w /\
    w_path w = "data/phonemes/a__ah_S__4.wav"%string /\
    List.length (w_data w) = 2757%nat.
Proof.
  split; [reflexivity|]. split; [reflexivity|]. split; [reflexivity|].
  split; [vm_compute; intros H; apply H; reflexivity|].
  split; [reflexivity|]. split; [reflexivity|].
  eexists. eexists. split; [vm_compute; reflexivity|].
  split; [reflexivity|]. split; [reflexivity|]. vm_compute. reflexivity.
Qed.

(** C6, amended: every segment written is that of one frame of the
    timeline, the one at the position its name carries; its slice
    boundaries are that frame's start and end multiplied by the sample rate
    and truncated, [int(start * sr)] and [int(end * sr)]; the frame length
    is [data_size = int(sr * FRAME_SIZE / 1000)], truncated too; and after
    right-padding the segment holds at least [data_size] samples, exactly
    [data_size] when the slice is not longer than that. *)
Theorem C6_truncated_sample_bounds
  (fs : FileSystem) (audio_path : string) (ws : list WavWrite) (w : WavWrite) :
  save_phoneme_frames fs audio_path = Ok ws ->
  In w ws ->
  exists tl sr wav k f s e,
    get_phoneme_timestamps fs (label_path_of (audio_name_of audio_path)) = Ok tl /\
    waves fs audio_path = Ok (sr, wav) /\
    nth_error tl k = Some f /\
    w_path w = segment_path (audio_name_of audio_path) (phoneme f) (k + 1) /\
    sample_index (start f) sr = Ok s /\
    sample_index (end_ f) sr = Ok e /\
    w_data w = pad_data (Py.slice wav s e) (data_size_of sr) /\
    data_size_of sr = Z.quot (sr * FRAME_SIZE) 1000 /\
    data_size_of sr <= Z.of_nat (List.length (w_data w)) /\
    (Z.of_nat (List.length (Py.slice wav s e)) <= data_size_of sr ->
     Z.of_nat (List.length (w_data w)) = data_size_of sr).
Proof.
  intros H Hin.
  apply save_phoneme_frames_ok in H as [->|(tl & sr & wav & Et & Ew & ->)];
    [contradiction|].
  apply write_frames_in in Hin as (k & f & s & e & Hk & _ & Hs & He & ->).
  exists tl, sr, wav, k, f, s, e. cbn [w_path w_data].
  repeat split; try assumption; try reflexivity.
  - apply data_size_of_quot.
  - rewrite pad_data_length. lia.
  - intros Hle. rewrite pad_data_length. lia.
Qed.

Lemma C6_truncated_sample_bounds_witness :
  save_phoneme_frames fs_11025 "data/raw/a.wav"
  = Ok [mkWrite "data/phonemes/a__ah_S__1.wav" 11025 (repeat 7 (Z.to_nat 2756));
            mkWrite "data/phonemes/a__ah_S__2.wav" 11025 (repeat 7 (Z.to_nat 2756));
            mkWrite "data/phonemes/a__ah_S__3.wav" 11025 (repeat 7 (Z.to_nat 2756));
            mkWrite "data/phonemes/a__ah_S__4.wav" 11025 (repeat 7 (Z.to_nat 2757));
            mkWrite "data/phonemes/a__ah_S__5.wav" 11025 (repeat 7 (Z.to_nat 2756))] /\
  exists tl sr wav k f s e,
    get_phoneme_timestamps fs_11025 (label_path_of (audio_name_of "data/raw/a.wav")) = Ok tl /\
    waves fs_11025 "data/raw/a.wav" = Ok (sr, wav) /\
    nth_error tl k = Some f /\
    w_path (mkWrite "data/phonemes/a__ah_S__4.wav" 11025 (repeat 7 (Z.to_nat 2757)))
    = segment_path (audio_name_of "data/raw/a.wav") (phoneme f) (k + 1) /\
    sample_index (start f) sr = Ok s /\
    sample_index (end_ f) sr = Ok e /\
    w_data (mkWrite "data/phonemes/a__ah_S__4.wav" 11025 (repeat 7 (Z.to_nat 2757)))
    = pad_data (Py.slice wav s e) (data_size_of sr) /\
    data_size_of sr = Z.quot (sr * FRAME_SIZE) 1000 /\
    data_size_of sr
    <= Z.of_nat (List.length (w_data (mkWrite "data/phonemes/a__ah_S__4.wav" 11025 (repeat 7 (Z.to_nat 2757))))) /\
    (Z.of_nat (List.length (Py.slice wav s e)) <= data_size_of sr ->
     Z.of_nat (List.length (w_data (mkWrite "data/phonemes/a__ah_S__4.wav" 11025 (repeat 7 (Z.to_nat 2757)))))
     = data_size_of sr).
Proof.
  split; [vm_compute; reflexivity|].
  apply (C6_truncated_sample_bounds fs_11025 "data/raw/a.wav"
           [mkWrite "data/phonemes/a__ah_S__1.wav" 11025 (repeat 7 (Z.to_nat 2756));
            mkWrite "data/phonemes/a__ah_S__2.wav" 11025 (repeat 7 (Z.to_nat 2756));
            mkWrite "data/phonemes/a__ah_S__3.wav" 11025 (repeat 7 (Z.to_nat 2756));
            mkWrite "data/phonemes/a__ah_S__4.wav" 11025 (repeat 7 (Z.to_nat 2757));
            mkWrite "data/phonemes/a__ah_S__5.wav" 11025 (repeat 7 (Z.to_nat 2756))]).
  - vm_compute; reflexivity.
  - right; right; right; left; reflexivity.
Defined.

(** ** Grouping: what [grouper] yields *)

Lemma take_fill_spec {A : Type} (n : nat) :
  forall l : list A,
    take_fill n l
    = (map Some (firstn n l) ++ repeat None (n - List.length l), skipn n l).
Proof.
  induction n as [|n IH]; intros l; cbn [take_fill].
  - reflexivity.
  - destruct l as [|x l'].
    + rewrite IH. cbn [firstn skipn map List.length app]. rewrite !Nat.sub_0_r.
      destruct n; reflexivity.
    + rewrite IH. reflexivity.
Qed.

Lemma grouper_from_nil {A : Type} (fuel n : nat) :
  grouper_from fuel (@nil A) n = [].
Proof. destruct fuel; reflexivity. Qed.

Lemma grouper_from_spec {A : Type} (n : nat) (Hn : (0 < n)%nat) (fuel : nat) :
  forall l : list A,
    (List.length l <= fuel)%nat ->
    List.concat (grouper_from fuel l n)
    = map Some l ++ repeat None ((n - List.length l mod n) mod n) /\
    List.length (grouper_from fuel l n) = ((List.length l + n - 1) / n)%nat.
Proof.
  induction fuel as [|fuel IH]; intros l Hl.
  - destruct l; [|cbn in Hl; lia]. cbn.
    rewrite Nat.Div0.mod_0_l, Nat.sub_0_r, Nat.Div0.mod_same.
    split; [reflexivity|]. symmetry. apply Nat.div_small. lia.
  - destruct l as [|x l'].
    + cbn. rewrite Nat.Div0.mod_0_l, Nat.sub_0_r, Nat.Div0.mod_same.
      split; [reflexivity|]. symmetry. apply Nat.div_small. lia.
    + cbn [grouper_from]. rewrite take_fill_spec.
      set (l := x :: l') in *.
      assert (Hpos : (0 < List.length l)%nat) by (cbn; lia).
      destruct (Nat.le_gt_cases n (List.length l)) as [Hge|Hlt].
      * destruct (IH (skipn n l)) as [E1 E2]; [rewrite length_skipn; lia|].
        cbn [List.concat List.length]. rewrite E1, E2, length_skipn.
        replace (n - List.length l)%nat with 0%nat by lia.
        cbn [repeat]. rewrite app_nil_r.
        assert (Em : ((List.length l - n) mod n = List.length l mod n)%nat).
        { replace (List.length l) with ((List.length l - n) + 1 * n)%nat at 2 by lia.
          now rewrite Nat.Div0.mod_add. }
        rewrite Em. split.
        -- rewrite app_assoc, <- map_app, firstn_skipn. reflexivity.
        -- replace (List.length l + n - 1)%nat
             with ((List.length l - n + n - 1) + 1 * n)%nat by lia.
           rewrite Nat.div_add by lia. lia.
      * rewrite skipn_all2 by lia. rewrite firstn_all2 by lia.
        rewrite grouper_from_nil. cbn [List.concat List.length]. rewrite app_nil_r.
        rewrite (Nat.mod_small (List.length l) n) by lia.
        rewrite (Nat.mod_small (n - List.length l) n) by lia.
        split; [reflexivity|].
        replace (List.length l + n - 1)%nat
          with ((List.length l - 1) + 1 * n)%nat by lia.
        rewrite Nat.div_add by lia. rewrite Nat.div_small by lia. reflexivity.
Qed.

(** X2: for a positive [n], the tuples of [grouper] laid end to end are the
    items of the list, each once and in order, followed by fewer than [n]
    fillers; there are ceil(len / n) tuples. *)
Theorem grouper_concat {A : Type} (l : list A) (n : Z) :
  0 < n ->
  let k := Z.to_nat n in
  List.concat (grouper l n) = map Some l ++ repeat None ((k - List.length l mod k) mod k) /\
  ((k - List.length l mod k) mod k < k)%nat /\
  List.length (grouper l n) = ((List.length l + k - 1) / k)%nat.
Proof.
  intros Hn k. assert (Hk : (0 < k)%nat) by (unfold k; lia).
  unfold grouper. fold k. destruct k as [|k'] eqn:E; [lia|].
  destruct (grouper_from_spec (S k') Hk (List.length l) l (le_n _)) as [E1 E2].
  split; [exact E1|]. split; [apply Nat.mod_upper_bound; lia|exact E2].
Qed.

Lemma grouper_concat_witness :
  0 < 3 /\
  List.concat (grouper seven 3)
  = map Some seven ++ [None; None].
Proof.
  split; [lia|]. exact (proj1 (grouper_concat seven 3 ltac:(lia))).
Defined.

(** ** Stream ranges: what [__iter__] slices *)

Lemma Qceiling_div (a b : Z) :
  0 < b -> Qceiling (inject_Z a / inject_Z b) = (a + b - 1) / b.
Proof.
  intros Hb. unfold Qceiling.
  assert (E : (- (inject_Z a / inject_Z b) == inject_Z (- a) / inject_Z b)%Q).
  { rewrite inject_Z_opp. field. intros H.
    apply (inject_Z_injective b 0) in H. lia. }
  rewrite E, <- Zdiv_Qdiv.
  pose proof (Z.div_mod (- a) b ltac:(lia)).
  pose proof (Z.mod_pos_bound (- a) b Hb).
  pose proof (Z.div_mod (a + b - 1) b ltac:(lia)).
  pose proof (Z.mod_pos_bound (a + b - 1) b Hb).
  nia.
Qed.

Lemma slice_from_zero {A : Type} (l : list A) (e : Z) :
  0 <= e -> Py.slice l 0 e = firstn (Z.to_nat e) l.
Proof.
  intros He. unfold Py.slice, Py.clamp_index.
  destruct (Z.ltb_spec 0 0); [lia|]. destruct (Z.ltb_spec e 0); [lia|].
  rewrite (Z.min_l 0) by lia. cbn [Z.to_nat skipn]. rewrite Z.sub_0_r.
  destruct (Z.le_gt_cases e (Z.of_nat (List.length l))).
  - now rewrite (Z.min_l e) by lia.
  - rewrite (Z.min_r e) by lia. rewrite Nat2Z.id.
    rewrite firstn_all. symmetry. apply firstn_all2. lia.
Qed.

(** X3: outside a worker, a dataset with a positive batch size has the
    range [0, ceil(len / batch_size)): what is grouped is the first
    ceil(len / batch_size) files of the list, not more; with a batch size
    of 1 that is the whole list. *)
Theorem unattached_reads_first_files (ds : Dataset) :
  batch_size ds > 0 ->
  let len := Z.of_nat (List.length (files ds)) in
  let end_idx := (len + batch_size ds - 1) / batch_size ds in
  index_range ds None = Ok (0, end_idx) /\
  grouped_files ds None
  = Ok (grouper (firstn (Z.to_nat end_idx) (files ds)) (batch_size ds)) /\
  (batch_size ds = 1 ->
   grouped_files ds None = Ok (grouper (files ds) 1)).
Proof.
  intros Hb len end_idx.
  assert (Hi : index_range ds None = Ok (0, end_idx)).
  { unfold index_range. destruct (Z.eqb_spec (batch_size ds) 0); [lia|].
    rewrite Qceiling_div by lia. reflexivity. }
  assert (He : 0 <= end_idx).
  { unfold end_idx. apply Z.div_pos; lia. }
  assert (Hg : grouped_files ds None
               = Ok (grouper (firstn (Z.to_nat end_idx) (files ds)) (batch_size ds))).
  { unfold grouped_files. rewrite Hi. cbn [bind fst snd].
    now rewrite slice_from_zero. }
  split; [exact Hi|]. split; [exact Hg|].
  intros H1. rewrite Hg. unfold end_idx, len. rewrite H1.
  replace (Z.of_nat (List.length (files ds)) + 1 - 1)
    with (Z.of_nat (List.length (files ds))) by lia.
  rewrite Z.div_1_r, Nat2Z.id, firstn_all. reflexivity.
Qed.

Lemma unattached_reads_first_files_witness :
  batch_size (mkDataset ten 4) > 0 /\
  grouped_files (mkDataset ten 4) None
  = Ok [[Some "p0"; Some "p1"; Some "p2"; None]]%string.
Proof.
  split; [reflexivity|].
  exact (proj1 (proj2 (unattached_reads_first_files (mkDataset ten 4) eq_refl))).
Defined.

(** X4: in a pool of [count >= 1] workers every worker's range has the
    same length len // count, what is grouped for worker [wid] is that many
    files from position wid * (len // count) on, and fewer than [count]
    files of the list are in no worker's range. *)
Theorem attached_equal_shares (ds : Dataset) (count wid : Z) :
  batch_size ds > 0 -> 1 <= count -> 0 <= wid < count ->
  let len := Z.of_nat (List.length (files ds)) in
  let work_load := len / count in
  grouped_files ds (Some (mkWorkerInfo wid count))
  = Ok (grouper (firstn (Z.to_nat work_load)
                   (skipn (Z.to_nat (wid * work_load)) (files ds)))
          (batch_size ds)) /\
  0 <= len - count * work_load < count.
Proof.
  intros Hb Hc Hw len work_load.
  assert (Hl : 0 <= len) by apply Nat2Z.is_nonneg.
  destruct (partition_bounds len count wid Hl Hc Hw) as (B1 & B2 & B3).
  fold work_load in B1, B2, B3.
  assert (H0 : 0 <= work_load) by (apply Z.div_pos; lia).
  split.
  - unfold grouped_files, index_range.
    destruct (Z.eqb_spec (batch_size ds) 0); [lia|].
    cbn [num_workers id]. destruct (Z.eqb_spec count 0); [lia|].
    cbn [bind fst snd]. fold len. fold work_load.
    rewrite slice_in_range by (fold len; lia).
    replace (wid * work_load + work_load - wid * work_load) with work_load by ring.
    reflexivity.
  - pose proof (Z.div_mod len count ltac:(lia)) as E.
    pose proof (Z.mod_pos_bound len count ltac:(lia)).
    fold work_load in E. lia.
Qed.

Lemma attached_equal_shares_witness :
  (batch_size (mkDataset ten 2) > 0 /\ 1 <= 3 /\ 0 <= 2 < 3) /\
  grouped_files (mkDataset ten 2) (Some (mkWorkerInfo 2 3))
  = Ok [[Some "p6"; Some "p7"]; [Some "p8"; None]]%string.
Proof.
  split; [repeat split; lia|].
  exact (proj1 (attached_equal_shares (mkDataset ten 2) 3 2 eq_refl
                  ltac:(lia) ltac:(lia))).
Defined.

(** X5: a pool of one worker reads the whole list: for worker 0 of 1 the
    grouped files are [grouper] of all the files. *)
Theorem single_worker_reads_all (ds : Dataset) :
  batch_size ds > 0 ->
  index_range ds (Some (mkWorkerInfo 0 1))
  = Ok (0, Z.of_nat (List.length (files ds))) /\
  grouped_files ds (Some (mkWorkerInfo 0 1))
  = Ok (grouper (files ds) (batch_size ds)).
Proof.
  intros Hb.
  assert (Hi : index_range ds (Some (mkWorkerInfo 0 1))
               = Ok (0, Z.of_nat (List.length (files ds)))).
  { unfold index_range. destruct (Z.eqb_spec (batch_size ds) 0); [lia|].
    cbn [num_workers]. cbn [Z.eqb]. rewrite Z.div_1_r. reflexivity. }
  split; [exact Hi|].
  unfold grouped_files. rewrite Hi. cbn [bind fst snd].
  rewrite slice_from_zero by lia. now rewrite Nat2Z.id, firstn_all.
Qed.

Lemma single_worker_reads_all_witness :
  batch_size (mkDataset seven 3) > 0 /\
  grouped_files (mkDataset seven 3) (Some (mkWorkerInfo 0 1))
  = Ok (grouper seven 3).
Proof.
  split; [reflexivity|].
  exact (proj2 (single_worker_reads_all (mkDataset seven 3) eq_refl)).
Defined.

(** X6: [__init__] fails, with [AssertionError], exactly when no file is
    found or the batch size is not positive; otherwise it keeps the files
    and the batch size as given. *)
Theorem init_validation (found : list string) (bs : Z) :
  (init found bs = Raise AssertionError <-> found = [] \/ bs <= 0) /\
  (init found bs = Ok (mkDataset found bs) <-> found <> [] /\ 0 < bs) /\
  (forall r, init found bs = r ->
             r = Raise AssertionError \/ r = Ok (mkDataset found bs)).
Proof.
  unfold init. destruct found as [|f found']; [|destruct (Z.gtb_spec bs 0) as [Hb|Hb]].
  - split; [|split].
    + split; [intros _; now left|reflexivity].
    + split; [discriminate|]. intros [H _]. now contradiction H.
    + intros r <-. now left.
  - split; [|split].
    + split; [discriminate|]. intros [H|H]; [discriminate|lia].
    + split; [|reflexivity]. intros _. split; [discriminate|lia].
    + intros r <-. now right.
  - split; [|split].
    + split; [|reflexivity]. intros _. right. lia.
    + split; [discriminate|]. intros [_ H]. lia.
    + intros r <-. now left.
Qed.

Lemma init_validation_witness :
  (seven <> [] /\ 0 < 3) /\ init seven 3 = Ok (mkDataset seven 3).
Proof.
  split; [split; [discriminate|lia]|].
  apply (proj2 (proj1 (proj2 (init_validation seven 3)))).
  split; [discriminate|lia].
Defined.

(** X7: whatever [self] and the batch are, every element of
    [lazy_load_files(self, files)] raises [TypeError] when it is forced:
    [map] calls [wav_to_spectrogram], a function of two parameters, with
    the file alone.  No spectrogram is ever computed. *)
Theorem lazy_load_files_elements_raise {S : Type}
  (spectrogram : list Z -> Z -> S) (fs : FileSystem)
  (self : loader_arg) (files : list (option string)) :
  exists elements,
    lazy_load_files spectrogram fs [self; LFiles files] = Ok elements /\
    List.length elements = List.length files /\
    Forall (fun r => r = Raise TypeError) elements.
Proof.
  eexists. split; [reflexivity|]. split; [apply length_map|].
  apply Forall_forall. intros r Hin. apply in_map_iff in Hin as (file & <- & _).
  reflexivity.
Qed.

(** ** Names of the segment files *)

Lemma list_ascii_app (a b : string) :
  list_ascii_of_string (a ++ b) = list_ascii_of_string a ++ list_ascii_of_string b.
Proof. induction a as [|c a IH]; cbn; [reflexivity|now rewrite IH]. Qed.

Lemma string_of_uint_no_underscore (d : Decimal.uint) :
  ~ In "_"%char (list_ascii_of_string (NilEmpty.string_of_uint d)).
Proof.
  induction d; cbn; intros H; try contradiction;
    destruct H as [H|H]; try discriminate; auto.
Qed.

Lemma str_injective (n m : nat) : Py.str n = Py.str m -> n = m.
Proof.
  unfold Py.str. intros H.
  assert (E : Some (Nat.to_uint n) = Some (Nat.to_uint m)).
  { rewrite <- !NilEmpty.usu. now rewrite H. }
  injection E as E. apply (f_equal Nat.of_uint) in E.
  now rewrite !DecimalNat.Unsigned.of_to in E.
Qed.

(** Two lists that end in a run without separator, each after a
    separator, and that are equal, have the same run. *)
Lemma suffix_after_separator {A : Type} (sep : A) (a1 b1 a2 b2 : list A) :
  (a1 ++ [sep]) ++ b1 = (a2 ++ [sep]) ++ b2 ->
  ~ In sep b1 -> ~ In sep b2 -> b1 = b2.
Proof.
  intros E H1 H2. apply app_eq_app in E as [l [[Ea Eb]|[Ea Eb]]].
  - destruct l as [|x l] using rev_ind; [now rewrite Eb|].
    rewrite app_assoc in Ea. apply app_inj_tail in Ea as [_ <-].
    exfalso. apply H2. rewrite Eb. apply in_or_app. left.
    apply in_or_app. right. now left.
  - destruct l as [|x l] using rev_ind; [now rewrite Eb|].
    rewrite app_assoc in Ea. apply app_inj_tail in Ea as [_ <-].
    exfalso. apply H1. rewrite Eb. apply in_or_app. left.
    apply in_or_app. right. now left.
Qed.

Lemma segment_path_index (audio_name ph1 ph2 : string) (n m : nat) :
  segment_path audio_name ph1 n = segment_path audio_name ph2 m -> n = m.
Proof.
  unfold segment_path. intros E.
  apply (f_equal list_ascii_of_string) in E.
  rewrite !list_ascii_app in E.
  apply app_inv_head in E. apply app_inv_head in E.
  apply app_inv_head in E.
  rewrite !app_assoc in E. apply app_inv_tail in E.
  apply str_injective.
  rewrite <- (string_of_list_ascii_of_string (Py.str n)).
  rewrite <- (string_of_list_ascii_of_string (Py.str m)). f_equal.
  change (list_ascii_of_string "__") with (["_"%char] ++ ["_"%char]) in E.
  rewrite !app_assoc in E.
  eapply suffix_after_separator; [exact E| |];
    apply string_of_uint_no_underscore.
Qed.

Lemma write_frames_paths_nodup (fs : FileSystem) (audio_name : string) (sr : Z)
  (wav : list Z) (data_size : Z) (frames : list Frame) :
  forall i, NoDup (map w_path (fst (write_frames fs audio_name sr wav data_size i frames))).
Proof.
  induction frames as [|f rest IH]; intros i; cbn [write_frames].
  - constructor.
  - destruct (Py.contains "oov" (phoneme f)); [apply IH|].
    destruct (write_frame fs audio_name sr wav data_size i f) as [w0|x] eqn:Ew;
      [|constructor].
    cbn [fst map]. constructor; [|apply IH].
    apply write_frame_ok in Ew as (s0 & e0 & _ & _ & _ & ->). cbn [w_path].
    intros Hin. apply in_map_iff in Hin as (w & Ew & Hin).
    apply write_frames_in in Hin as (k & g & s & e & _ & _ & _ & _ & ->).
    cbn [w_path] in Ew. apply segment_path_index in Ew. lia.
Qed.

(** X13: the segment files of one run have pairwise different names: no
    segment overwrites another one of the same recording. *)
Theorem segment_names_distinct
  (fs : FileSystem) (audio_path : string) (ws : list WavWrite) :
  save_phoneme_frames fs audio_path = Ok ws -> NoDup (map w_path ws).
Proof.
  intros H.
  apply save_phoneme_frames_ok in H as [->|(tl & sr & wav & _ & _ & ->)].
  - constructor.
  - apply write_frames_paths_nodup.
Qed.

Lemma segment_names_distinct_witness :
  save_phoneme_frames fs_short "data/raw/a.wav"
  = Ok [mkWrite "data/phonemes/a__ah_S__1.wav" 8 [3; 0];
        mkWrite "data/phonemes/a__ah_S__2.wav" 8 [3; 0];
        mkWrite "data/phonemes/a__ah_S__3.wav" 8 [3; 0];
        mkWrite "data/phonemes/a__ah_S__4.wav" 8 [0; 0];
        mkWrite "data/phonemes/a__ah_S__5.wav" 8 [0; 0]] /\
  NoDup ["data/phonemes/a__ah_S__1.wav"; "data/phonemes/a__ah_S__2.wav";
         "data/phonemes/a__ah_S__3.wav"; "data/phonemes/a__ah_S__4.wav";
         "data/phonemes/a__ah_S__5.wav"]%string.
Proof.
  split; [vm_compute; reflexivity|].
  apply (segment_names_distinct fs_short "data/raw/a.wav"
           [mkWrite "data/phonemes/a__ah_S__1.wav" 8 [3; 0];
            mkWrite "data/phonemes/a__ah_S__2.wav" 8 [3; 0];
            mkWrite "data/phonemes/a__ah_S__3.wav" 8 [3; 0];
            mkWrite "data/phonemes/a__ah_S__4.wav" 8 [0; 0];
            mkWrite "data/phonemes/a__ah_S__5.wav" 8 [0; 0]]).
  vm_compute; reflexivity.
Defined.

Lemma contains_char_cons (sep c : ascii) (s : string) :
  Py.contains (String sep EmptyString) (String c s)
  = if Ascii.eqb c sep then true else Py.contains (String sep EmptyString) s.
Proof.
  cbn [Py.contains prefix]. destruct (ascii_dec sep c) as [<-|Hne].
  - rewrite Ascii.eqb_refl. now destruct s.
  - destruct (Ascii.eqb_spec c sep) as [->|_]; [now contradiction Hne|reflexivity].
Qed.

Lemma last_field_no_separator (sep : ascii) (s : string) :
  Py.contains (String sep EmptyString) (Py.last_field sep s) = false.
Proof.
  induction s as [|c s IH]; [reflexivity|].
  cbn [Py.last_field].
  destruct (Py.contains (String sep EmptyString) s) eqn:Es; [exact IH|].
  destruct (Ascii.eqb c sep) eqn:Ec; [exact Es|].
  rewrite contains_char_cons, Ec. exact Es.
Qed.

Lemma last_field_without_separator (sep : ascii) (s : string) :
  Py.contains (String sep EmptyString) s = false -> Py.last_field sep s = s.
Proof.
  destruct s as [|c s]; [reflexivity|].
  rewrite contains_char_cons. destruct (Ascii.eqb c sep) eqn:Ec; [discriminate|].
  intros Es. cbn [Py.last_field]. now rewrite Es, Ec.
Qed.

Lemma contains_char_nil (sep : ascii) :
  Py.contains (String sep EmptyString) EmptyString = false.
Proof. reflexivity. Qed.

Lemma contains_char_app (sep : ascii) (a b : string) :
  Py.contains (String sep EmptyString) (a ++ b)
  = Py.contains (String sep EmptyString) a || Py.contains (String sep EmptyString) b.
Proof.
  induction a as [|c a IH].
  - reflexivity.
  - change (String c a ++ b)%string with (String c (a ++ b)).
    rewrite !contains_char_cons, IH. now destruct (Ascii.eqb c sep).
Qed.

Lemma last_field_after_separator (sep : ascii) (a b : string) :
  Py.contains (String sep EmptyString) b = false ->
  Py.last_field sep (a ++ String sep b) = b.
Proof.
  intros Hb. induction a as [|c a IH].
  - cbn [append Py.last_field]. now rewrite Hb, Ascii.eqb_refl.
  - change (String c a ++ String sep b)%string with (String c (a ++ String sep b)).
    cbn [Py.last_field]. rewrite contains_char_app, contains_char_cons, Ascii.eqb_refl.
    rewrite orb_true_r. exact IH.
Qed.

Lemma dir_of_before_last_slash (a b : string) :
  Py.contains "/" b = false -> Py.dir_of (a ++ String "/" b) = a.
Proof.
  intros Hb. induction a as [|c a IH].
  - cbn [append Py.dir_of]. now rewrite Hb.
  - change (String c a ++ String "/" b)%string with (String c (a ++ String "/" b)).
    cbn [Py.dir_of]. rewrite contains_char_app, contains_char_cons, Ascii.eqb_refl.
    rewrite orb_true_r. now rewrite IH.
Qed.

(** X14: the name taken from the path of a recording never contains "/",
    so the annotation is looked up directly under data/raw/, whatever
    directory the path names. *)
Theorem audio_name_has_no_slash (audio_path : string) :
  Py.contains "/" (audio_name_of audio_path) = false /\
  Py.dir_of (label_path_of (audio_name_of audio_path)) = "data/raw"%string.
Proof.
  assert (H : Py.contains "/" (audio_name_of audio_path) = false)
    by apply last_field_no_separator.
  split; [exact H|]. unfold label_path_of.
  apply (dir_of_before_last_slash "data/raw").
  rewrite contains_char_app, H. reflexivity.
Qed.

Lemma remove_wav_without_dot (x : string) :
  forall fuel,
    Py.contains "." x = false -> (String.length x < fuel)%nat ->
    Py.remove_all_from fuel ".wav" (x ++ ".wav") = x.
Proof.
  induction x as [|c x IH]; intros fuel Hx Hf.
  - destruct fuel as [|fuel]; [cbn in Hf; lia|]. cbn. now destruct fuel.
  - destruct fuel as [|fuel]; [cbn in Hf; lia|].
    rewrite contains_char_cons in Hx.
    destruct (Ascii.eqb_spec c ".") as [->|Hc]; [discriminate|].
    change (String c x ++ ".wav")%string with (String c (x ++ ".wav")).
    cbn [Py.remove_all_from prefix].
    destruct (ascii_dec "." c) as [<-|_]; [now contradiction Hc|].
    f_equal. apply IH; [exact Hx|cbn in Hf; lia].
Qed.

Lemma string_length_app (a b : string) :
  String.length (a ++ b) = (String.length a + String.length b)%nat.
Proof. induction a as [|c a IH]; cbn; [reflexivity|now rewrite IH]. Qed.

Lemma string_app_assoc (a b c : string) : ((a ++ b) ++ c = a ++ (b ++ c))%string.
Proof. induction a as [|x a IH]; cbn; [reflexivity|now rewrite IH]. Qed.

(** X15: for a path dir/name.wav, where neither the directory nor the name
    has a "." and the name has no "/", the name of the recording is [name]
    and the annotation read is data/raw/name_labels.txt. *)
Theorem audio_name_of_plain_path (dir name : string) :
  Py.contains "." dir = false ->
  Py.contains "." name = false ->
  Py.contains "/" name = false ->
  audio_name_of (dir ++ "/" ++ name ++ ".wav") = name /\
  label_path_of (audio_name_of (dir ++ "/" ++ name ++ ".wav"))
  = ("data/raw/" ++ name ++ "_labels.txt")%string.
Proof.
  intros Hd Hn Hs.
  assert (E : audio_name_of (dir ++ "/" ++ name ++ ".wav") = name).
  { unfold audio_name_of, Py.remove_all.
    replace (dir ++ "/" ++ name ++ ".wav")%string
      with ((dir ++ "/" ++ name) ++ ".wav")%string
      by (now rewrite !string_app_assoc).
    rewrite remove_wav_without_dot.
    - apply (last_field_after_separator "/" dir name Hs).
    - change ("/" ++ name)%string with (String "/" name).
      rewrite contains_char_app, contains_char_cons, Hd, Hn. reflexivity.
    - rewrite (string_length_app _ ".wav"). cbn. lia. }
  split; [exact E|]. now rewrite E.
Qed.

Lemma audio_name_of_plain_path_witness :
  (Py.contains "." "data/raw" = false /\
   Py.contains "." "a" = false /\
   Py.contains "/" "a" = false) /\
  audio_name_of "data/raw/a.wav" = "a"%string.
Proof.
  split; [repeat split|].
  exact (proj1 (audio_name_of_plain_path "data/raw" "a" eq_refl eq_refl eq_refl)).
Defined.

(** ** Padding of the last timestamp *)

Lemma padded_non_whole (t : Q) :
  ~ (t == inject_Z (Py.py_int t))%Q ->
  let m := Qfloor (((t - inject_Z (Py.py_int t)) * 1000) / inject_Z FRAME_SIZE) + 1 in
  (get_padded_last_timestamp t == inject_Z (1000 * Py.py_int t + FRAME_SIZE * m))%Q /\
  (t * 1000 < get_padded_last_timestamp t)%Q /\
  (get_padded_last_timestamp t <= t * 1000 + inject_Z FRAME_SIZE)%Q.
Proof.
  intros Hw m. unfold get_padded_last_timestamp, Py.floordiv. fold m.
  set (I := inject_Z (Py.py_int t)) in *.
  destruct (Qeq_bool ((t - I) * 1000) 0) eqn:E.
  { apply Qeq_bool_iff in E. exfalso. apply Hw. lra. }
  pose proof (Qfloor_le (((t - I) * 1000) / inject_Z FRAME_SIZE)) as H1.
  pose proof (Qlt_floor (((t - I) * 1000) / inject_Z FRAME_SIZE)) as H2.
  replace (Qfloor ((t - I) * 1000 / inject_Z FRAME_SIZE) + 1) with m in * by reflexivity.
  assert (Em : (inject_Z (m - 1) == inject_Z m - 1)%Q).
  { unfold Z.sub. rewrite inject_Z_plus. reflexivity. }
  replace (Qfloor ((t - I) * 1000 / inject_Z FRAME_SIZE)) with (m - 1) in * by (unfold m; lia).
  rewrite Em in *. clear Em.
  rewrite inject_Z_plus, !inject_Z_mult. fold I.
  unfold FRAME_SIZE in *.
  change (inject_Z 250) with 250%Q in *. change (inject_Z 1000) with 1000%Q in *.
  qdiv_consts. generalize dependent (inject_Z m). intros M H1 H2.
  repeat split; lra.
Qed.

(** X16: for a timestamp that is not a whole number of seconds,
    [get_padded_last_timestamp] returns a whole number of milliseconds of
    the form 1000 * int(t) + FRAME_SIZE * m, which lies beyond the
    timestamp (in milliseconds) by more than 0 and at most [FRAME_SIZE]. *)
Theorem padded_beyond_timestamp (t : Q) :
  ~ (t == inject_Z (Py.py_int t))%Q ->
  let m := Qfloor (((t - inject_Z (Py.py_int t)) * 1000) / inject_Z FRAME_SIZE) + 1 in
  (get_padded_last_timestamp t == inject_Z (1000 * Py.py_int t + FRAME_SIZE * m))%Q /\
  (t * 1000 < get_padded_last_timestamp t)%Q /\
  (get_padded_last_timestamp t <= t * 1000 + inject_Z FRAME_SIZE)%Q.
Proof. exact (padded_non_whole t). Qed.

Lemma padded_beyond_timestamp_witness :
  ~ (5.12 == inject_Z (Py.py_int 5.12))%Q /\
  (get_padded_last_timestamp 5.12 == inject_Z 5250)%Q.
Proof.
  split; [vm_compute; discriminate|].
  refine (proj1 (padded_beyond_timestamp 5.12 _)). vm_compute; discriminate.
Defined.

(** ** Frames of a timeline *)

(** X17: in every timeline the frame at position [k] starts at
    k * WINDOW milliseconds and is [FRAME_SIZE] milliseconds long, the last
    frames included. *)
Theorem timeline_frame_by_position
  (ivs : list Interval) (tl : list Frame) (k : nat) (f : Frame) :
  build_timeline ivs = Ok tl ->
  nth_error tl k = Some f ->
  f = frame_at ivs (Z.of_nat k * WINDOW) /\
  (start f * 1000 == inject_Z (Z.of_nat k * WINDOW))%Q /\
  ((end_ f - start f) * 1000 == inject_Z FRAME_SIZE)%Q.
Proof.
  intros Ht Hk. apply build_timeline_frames in Ht as (p & _ & ->).
  rewrite nth_error_map in Hk.
  assert (Hlt : (k < List.length (Py.range 0 p WINDOW))%nat).
  { apply nth_error_Some. destruct (nth_error (Py.range 0 p WINDOW) k);
      [discriminate|discriminate Hk]. }
  rewrite range_window_nth in Hk by exact Hlt.
  cbn [option_map] in Hk. injection Hk as <-.
  split; [reflexivity|]. cbn [start end_ frame_at].
  rewrite inject_Z_plus. split; field.
Qed.

Lemma timeline_frame_by_position_witness :
  build_timeline [mkInterval 0.10 0.15 "ah_S"]
  = Ok (map (frame_at [mkInterval 0.10 0.15 "ah_S"]) [0; 50; 100; 150; 200]) /\
  nth_error (map (frame_at [mkInterval 0.10 0.15 "ah_S"]) [0; 50; 100; 150; 200]) 3
  = Some (frame_at [mkInterval 0.10 0.15 "ah_S"] 150) /\
  (start (frame_at [mkInterval 0.10 0.15 "ah_S"] 150) * 1000 == inject_Z 150)%Q.
Proof.
  split; [reflexivity|]. split; [reflexivity|].
  exact (proj1 (proj2 (timeline_frame_by_position
                         [mkInterval 0.10 0.15 "ah_S"]
                         (map (frame_at [mkInterval 0.10 0.15 "ah_S"]) [0; 50; 100; 150; 200])
                         3 (frame_at [mkInterval 0.10 0.15 "ah_S"] 150)
                         eq_refl eq_refl))).
Defined.

Lemma last_phoneme_in (ivs : list Interval) (p : string) :
  last_phoneme ivs = Some p -> exists iv, In iv ivs /\ iv_phoneme iv = p.
Proof.
  induction ivs as [|iv rest IH]; cbn [last_phoneme]; [discriminate|].
  destruct (last_phoneme rest) as [q|].
  - intros [= <-]. destruct (IH eq_refl) as (iv' & Hin & E).
    exists iv'. split; [now right|exact E].
  - intros [= <-]. exists iv. split; [now left|reflexivity].
Qed.

Lemma qualifying_prefix_in (end_time : Q) (ivs : list Interval) (iv : Interval) :
  In iv (qualifying_prefix end_time ivs) ->
  In iv ivs /\ qualifies end_time iv = true.
Proof.
  induction ivs as [|iv0 rest IH]; cbn [qualifying_prefix]; [contradiction|].
  destruct (qualifies end_time iv0) eqn:E; [|contradiction].
  intros [<-|Hin].
  - split; [now left|exact E].
  - destruct (IH Hin) as [H1 H2]. split; [now right|exact H2].
Qed.

(** X18: the label of a frame is never the empty string; it is "SIL"
    whenever the first interval of the list ends after the frame, whatever
    the later intervals are; and when it is not "SIL" it is the phoneme of
    an interval of the list that ends within the frame. *)
Theorem frame_label_provenance (ivs : list Interval) (i : Z) :
  let f := frame_at ivs i in
  phoneme f <> EmptyString /\
  (forall iv rest, ivs = iv :: rest -> qualifies (end_ f) iv = false ->
                   phoneme f = "SIL"%string) /\
  (phoneme f = "SIL"%string \/
   exists iv, In iv ivs /\ qualifies (end_ f) iv = true /\ phoneme f = iv_phoneme iv).
Proof.
  cbn zeta. cbn [phoneme end_ frame_at]. rewrite scan_intervals_prefix.
  set (e := (inject_Z (i + FRAME_SIZE) / 1000)%Q).
  destruct (last_phoneme (qualifying_prefix e ivs)) as [p|] eqn:El.
  - destruct (last_phoneme_in _ _ El) as (iv & Hin & <-).
    apply qualifying_prefix_in in Hin as [Hin Hq].
    split; [|split].
    + cbn [or_SIL]. destruct (iv_phoneme iv); discriminate.
    + intros iv0 rest -> Hq0. cbn [qualifying_prefix] in El.
      rewrite Hq0 in El. discriminate El.
    + cbn [or_SIL]. destruct (iv_phoneme iv) eqn:Ep; [now left|].
      right. exists iv. rewrite Ep. auto.
  - split; [discriminate|]. split; [reflexivity|now left].
Qed.

Lemma frame_label_provenance_witness :
  (unsorted_ends = mkInterval 0 0.1 "a" :: [mkInterval 0.1 0.9 "b"; mkInterval 0.15 0.2 "c"] /\
   qualifies (end_ (frame_at unsorted_ends (-200))) (mkInterval 0 0.1 "a") = false) /\
  phoneme (frame_at unsorted_ends (-200)) = "SIL"%string.
Proof.
  split; [split; reflexivity|].
  exact (proj1 (proj2 (frame_label_provenance unsorted_ends (-200)))
           (mkInterval 0 0.1 "a") [mkInterval 0.1 0.9 "b"; mkInterval 0.15 0.2 "c"]
           eq_refl eq_refl).
Defined.

Lemma qualifying_prefix_all (end_time : Q) (ivs : list Interval) :
  (forall iv, In iv ivs -> qualifies end_time iv = true) ->
  qualifying_prefix end_time ivs = ivs.
Proof.
  induction ivs as [|iv rest IH]; intros H; cbn [qualifying_prefix]; [reflexivity|].
  rewrite (H iv (or_introl eq_refl)). f_equal. apply IH.
  intros iv' Hin. apply H. now right.
Qed.

Lemma last_cons_default {A : Type} (l : list A) :
  forall x d d', last (x :: l) d = last (x :: l) d'.
Proof.
  induction l as [|y l IH]; intros x d d'; [reflexivity|].
  change (last (x :: y :: l) d) with (last (y :: l) d).
  change (last (x :: y :: l) d') with (last (y :: l) d'). apply IH.
Qed.

Lemma last_phoneme_last (iv : Interval) (rest : list Interval) :
  last_phoneme (iv :: rest) = Some (iv_phoneme (last rest iv)).
Proof.
  revert iv. induction rest as [|iv' rest IH]; intros iv; [reflexivity|].
  change (last_phoneme (iv :: iv' :: rest))
    with (match last_phoneme (iv' :: rest) with
          | Some p => Some p
          | None => Some (iv_phoneme iv)
          end).
  rewrite IH. do 2 f_equal.
  destruct rest as [|x rest]; [reflexivity|].
  change (last (iv' :: x :: rest) iv) with (last (x :: rest) iv).
  apply last_cons_default.
Qed.

(** X19: a frame that ends at or after the end of every interval carries
    the phoneme of the last line of the annotation ("SIL" only if that
    phoneme is empty): the frames after the last interval are not labelled
    as silence. *)
Theorem frame_after_all_intervals
  (iv : Interval) (rest : list Interval) (i : Z) :
  (forall iv', In iv' (iv :: rest) ->
               qualifies (end_ (frame_at (iv :: rest) i)) iv' = true) ->
  phoneme (frame_at (iv :: rest) i) = or_SIL (Some (iv_phoneme (last rest iv))).
Proof.
  cbn [phoneme end_ frame_at]. intros H.
  rewrite scan_intervals_prefix, qualifying_prefix_all by exact H.
  now rewrite last_phoneme_last.
Qed.

Lemma sorted_ends_all_qualify :
  forall iv', In iv' sorted_ends ->
              qualifies (end_ (frame_at sorted_ends 700)) iv' = true.
Proof.
  intros iv' Hin. cbn [sorted_ends In] in Hin.
  repeat (destruct Hin as [<-|Hin]; [reflexivity|]). contradiction.
Defined.

Lemma frame_after_all_intervals_witness :
  (forall iv', In iv' sorted_ends ->
               qualifies (end_ (frame_at sorted_ends 700)) iv' = true) /\
  phoneme (frame_at sorted_ends 700) = "c"%string.
Proof.
  split; [exact sorted_ends_all_qualify|].
  exact (frame_after_all_intervals (mkInterval 0 0.1 "a")
           [mkInterval 0.1 0.2 "b"; mkInterval 0.2 0.9 "c"] 700
           sorted_ends_all_qualify).
Defined.

(** ** Coverage of the recording *)

(** X20: when the last end [t] is not negative and not a whole number of
    seconds, the loop bound [p] is a multiple of [FRAME_SIZE] beyond [t],
    the timeline has p / WINDOW frames, and every instant of [0, t) lies
    in a frame of the timeline. *)
Theorem timeline_covers_recording (iv : Interval) (rest : list Interval) :
  (0 <= last_end iv rest)%Q ->
  ~ (last_end iv rest == inject_Z (Py.py_int (last_end iv rest)))%Q ->
  exists tl p,
    build_timeline (iv :: rest) = Ok tl /\
    padded_last_timestamp (iv :: rest) = Ok p /\
    (last_end iv rest * 1000 < inject_Z p)%Q /\
    p mod FRAME_SIZE = 0 /\
    List.length tl = Z.to_nat (p / WINDOW) /\
    forall x, (0 <= x)%Q -> (x < last_end iv rest)%Q ->
              exists f, In f tl /\ (start f <= x)%Q /\ (x < end_ f)%Q.
Proof.
  intros H0 Hw. set (t := last_end iv rest) in *.
  destruct (padded_non_whole t Hw) as (Ep & Hlt & _).
  set (P := 1000 * Py.py_int t
            + FRAME_SIZE * (Qfloor ((t - inject_Z (Py.py_int t)) * 1000
                                    / inject_Z FRAME_SIZE) + 1)) in *.
  assert (Hp : padded_last_timestamp (iv :: rest) = Ok P).
  { cbn [padded_last_timestamp]. fold t. now rewrite (py_int_whole _ P Ep). }
  destruct (build_timeline_total iv rest) as [tl Htl].
  destruct (build_timeline_frames _ _ Htl) as (p' & Hp' & Etl).
  rewrite Hp in Hp'. injection Hp' as <-.
  assert (HtP : (t * 1000 < inject_Z P)%Q) by now rewrite <- Ep.
  assert (Hmod : P mod FRAME_SIZE = 0).
  { unfold P, FRAME_SIZE.
    replace (1000 * Py.py_int t) with ((4 * Py.py_int t) * 250) by ring.
    rewrite Z.add_comm, Z.mul_comm, Z_mod_plus_full. apply Z_mod_mult. }
  assert (Hpos : 0 < P).
  { rewrite Zlt_Qlt. change (inject_Z 0) with 0%Q. lra. }
  assert (Hdiv : (P + WINDOW - 1) / WINDOW = P / WINDOW).
  { unfold FRAME_SIZE in Hmod. unfold WINDOW.
    pose proof (Z.div_mod P 250 ltac:(lia)) as E. rewrite Hmod in E.
    replace (P + 50 - 1) with (49 + (5 * (P / 250)) * 50) by lia.
    replace P with ((5 * (P / 250)) * 50) at 2 by lia.
    rewrite Z.div_add by lia. rewrite Z.div_mul by lia. reflexivity. }
  exists tl, P. split; [exact Htl|]. split; [exact Hp|]. split; [exact HtP|].
  split; [exact Hmod|]. split.
  { rewrite Etl, length_map, range_window_length. now rewrite Hdiv. }
  intros x Hx0 Hxt.
  set (k := Qfloor (x * 1000 / inject_Z WINDOW)).
  pose proof (Qfloor_le (x * 1000 / inject_Z WINDOW)) as K1.
  pose proof (Qlt_floor (x * 1000 / inject_Z WINDOW)) as K2.
  fold k in K1, K2. rewrite inject_Z_plus in K2.
  unfold WINDOW in K1, K2. change (inject_Z 50) with 50%Q in K1, K2.
  change (inject_Z 1) with 1%Q in K2.
  assert (Hk0 : 0 <= k).
  { assert (Hm : -1 < k); [|lia]. rewrite Zlt_Qlt.
    change (inject_Z (-1)) with (-1)%Q. qdiv_consts. lra. }
  assert (HkP : k * 50 < P).
  { rewrite Zlt_Qlt. rewrite inject_Z_mult. change (inject_Z 50) with 50%Q.
    qdiv_consts. lra. }
  assert (Hidx : (Z.to_nat k < List.length (Py.range 0 P WINDOW))%nat).
  { rewrite range_window_length. unfold WINDOW.
    assert (k + 1 <= (P + 50 - 1) / 50); [|lia].
    apply Z.div_le_lower_bound; lia. }
  exists (frame_at (iv :: rest) (k * WINDOW)). split.
  - rewrite Etl. apply in_map. eapply nth_error_In.
    rewrite range_window_nth by exact Hidx. now rewrite Z2Nat.id.
  - cbn [start end_ frame_at]. unfold WINDOW, FRAME_SIZE.
    rewrite inject_Z_plus, inject_Z_mult.
    change (inject_Z 50) with 50%Q. change (inject_Z 250) with 250%Q.
    qdiv_consts. split; lra.
Qed.

Lemma timeline_covers_recording_witness :
  (0 <= last_end (mkInterval 0.10 0.15 "ah_S") [])%Q /\
  ~ (last_end (mkInterval 0.10 0.15 "ah_S") []
     == inject_Z (Py.py_int (last_end (mkInterval 0.10 0.15 "ah_S") [])))%Q /\
  exists tl p,
    build_timeline [mkInterval 0.10 0.15 "ah_S"] = Ok tl /\
    padded_last_timestamp [mkInterval 0.10 0.15 "ah_S"] = Ok p /\
    (last_end (mkInterval 0.10 0.15 "ah_S") [] * 1000 < inject_Z p)%Q /\
    p mod FRAME_SIZE = 0 /\
    List.length tl = Z.to_nat (p / WINDOW) /\
    forall x, (0 <= x)%Q -> (x < last_end (mkInterval 0.10 0.15 "ah_S") [])%Q ->
              exists f, In f tl /\ (start f <= x)%Q /\ (x < end_ f)%Q.
Proof.
  split; [vm_compute; discriminate|]. split; [vm_compute; discriminate|].
  apply (timeline_covers_recording (mkInterval 0.10 0.15 "ah_S") []);
    vm_compute; discriminate.
Defined.


(** ** Pool driver: size of the pool and failures of the workers *)




(** ** Segment writer: outcomes of a run *)

(** X9: an annotation that cannot be unpacked into three columns (no line
    at all, a line with fewer than three fields, or only lines with more),
    or whose last end is not a number, makes [save_phoneme_frames] raise
    [ValueError], and an infinite last end makes it raise [OverflowError]:
    the [except FileNotFoundError] clause lets both through, whether the
    wave file exists or not. *)
Theorem malformed_annotation_raises
  (fs : FileSystem) (audio_path : string) (lines : list Line) :
  labels fs (label_path_of (audio_name_of audio_path)) = Some lines ->
  (columns lines <> 3%nat -> save_phoneme_frames fs audio_path = Raise ValueError) /\
  (lines = [] -> save_phoneme_frames fs audio_path = Raise ValueError) /\
  (forall l rest, lines = l :: rest -> columns lines = 3%nat ->
     (l_end (last rest l) = None \/ l_end (last rest l) = Some NaN ->
      save_phoneme_frames fs audio_path = Raise ValueError) /\
     (forall negative, l_end (last rest l) = Some (Infinite negative) ->
      save_phoneme_frames fs audio_path = Raise OverflowError)).
Proof.
  intros Hl.
  assert (Hc : columns lines <> 3%nat ->
               save_phoneme_frames fs audio_path = Raise ValueError).
  { intros Hne. unfold save_phoneme_frames, get_phoneme_timestamps. rewrite Hl.
    unfold timeline_of_lines, unpack3.
    destruct (Nat.eqb_spec (columns lines) 3); [contradiction|reflexivity]. }
  split; [exact Hc|]. split.
  - intros ->. apply Hc. discriminate.
  - intros l rest -> Hcol.
    unfold save_phoneme_frames, get_phoneme_timestamps. rewrite Hl.
    unfold timeline_of_lines, unpack3. rewrite Hcol. cbn [Nat.eqb bind].
    unfold float_field. split.
    + intros [E|E]; rewrite E; reflexivity.
    + intros negative E. rewrite E. reflexivity.
Qed.

Lemma malformed_annotation_raises_witness :
  labels fs_empty_labels (label_path_of (audio_name_of "data/raw/e.wav")) = Some [] /\
  save_phoneme_frames fs_empty_labels "data/raw/e.wav" = Raise ValueError.
Proof.
  split; [reflexivity|].
  apply (proj1 (proj2 (malformed_annotation_raises fs_empty_labels "data/raw/e.wav" []
                         eq_refl))).
  reflexivity.
Defined.

(** X10: a recording whose annotation lines all have three fields and a
    finite end, at least one line, and whose wave file does not exist is
    skipped like one without annotation: no error, no write. *)
Theorem missing_wave_skipped
  (fs : FileSystem) (audio_path : string) (iv : Interval) (rest : list Interval) :
  labels fs (label_path_of (audio_name_of audio_path)) = Some (map line_of (iv :: rest)) ->
  waves fs audio_path = Raise FileNotFoundError ->
  save_phoneme_frames fs audio_path = Ok [].
Proof.
  intros Hl Hw. unfold save_phoneme_frames, get_phoneme_timestamps, wavfile_read.
  rewrite Hl, timeline_of_lines_line_of.
  destruct (build_timeline_total iv rest) as [tl ->]. rewrite Hw. reflexivity.
Qed.

Lemma missing_wave_skipped_witness :
  labels fs_no_wave (label_path_of (audio_name_of "data/raw/a.wav"))
  = Some (map line_of [mkInterval 0.10 0.15 "ah_S"]) /\
  waves fs_no_wave "data/raw/a.wav" = Raise FileNotFoundError /\
  save_phoneme_frames fs_no_wave "data/raw/a.wav" = Ok [].
Proof.
  split; [reflexivity|]. split; [reflexivity|].
  apply (missing_wave_skipped fs_no_wave "data/raw/a.wav"
           (mkInterval 0.10 0.15 "ah_S") []); reflexivity.
Defined.










Lemma slice_past_end {A : Type} (l : list A) (s e : Z) :
  Z.of_nat (List.length l) <= s -> Py.slice l s e = [].
Proof.
  intros Hs. unfold Py.slice, Py.clamp_index.
  destruct (Z.ltb_spec s 0); [lia|].
  rewrite (Z.min_r s) by lia.
  assert (He : (if e <? 0 then Z.max 0 (e + Z.of_nat (List.length l))
                else Z.min e (Z.of_nat (List.length l)))
               <= Z.of_nat (List.length l)).
  { destruct (Z.ltb_spec e 0); lia. }
  replace (Z.to_nat _) with 0%nat at 1 by lia. reflexivity.
Qed.

(** X12: every segment written is that of the frame at the position its
    name carries, and when that frame starts at or after the last sample of
    the recording the segment is made of zeros only, [data_size] of
    them. *)
Theorem segment_past_audio_is_zeros
  (fs : FileSystem) (audio_path : string) (ws : list WavWrite) (w : WavWrite) :
  save_phoneme_frames fs audio_path = Ok ws ->
  In w ws ->
  exists tl sr wav k f s,
    get_phoneme_timestamps fs (label_path_of (audio_name_of audio_path)) = Ok tl /\
    waves fs audio_path = Ok (sr, wav) /\
    nth_error tl k = Some f /\
    w_path w = segment_path (audio_name_of audio_path) (phoneme f) (k + 1) /\
    sample_index (start f) sr = Ok s /\
    (Z.of_nat (List.length wav) <= s ->
     w_data w = repeat 0 (Z.to_nat (data_size_of sr))).
Proof.
  intros H Hin.
  apply save_phoneme_frames_ok in H as [->|(tl & sr & wav & Et & Ew & ->)];
    [contradiction|].
  apply write_frames_in in Hin as (k & f & s & e & Hk & _ & Hs & He & ->).
  exists tl, sr, wav, k, f, s. cbn [w_path w_data].
  repeat split; try assumption.
  intros Hpast. rewrite slice_past_end by exact Hpast. unfold pad_data.
  cbn [List.length Z.of_nat]. destruct (Z.ltb_spec 0 (data_size_of sr)).
  - cbn [app]. now rewrite Z.sub_0_r.
  - now replace (Z.to_nat (data_size_of sr)) with 0%nat by lia.
Qed.

Lemma segment_past_audio_witness :
  save_phoneme_frames fs_short "data/raw/a.wav"
  = Ok [mkWrite "data/phonemes/a__ah_S__1.wav" 8 [3; 0];
        mkWrite "data/phonemes/a__ah_S__2.wav" 8 [3; 0];
        mkWrite "data/phonemes/a__ah_S__3.wav" 8 [3; 0];
        mkWrite "data/phonemes/a__ah_S__4.wav" 8 [0; 0];
        mkWrite "data/phonemes/a__ah_S__5.wav" 8 [0; 0]] /\
  exists tl sr wav k f s,
    get_phoneme_timestamps fs_short (label_path_of (audio_name_of "data/raw/a.wav")) = Ok tl /\
    waves fs_short "data/raw/a.wav" = Ok (sr, wav) /\
    nth_error tl k = Some f /\
    w_path (mkWrite "data/phonemes/a__ah_S__4.wav" 8 [0; 0])
    = segment_path (audio_name_of "data/raw/a.wav") (phoneme f) (k + 1) /\
    sample_index (start f) sr = Ok s /\
    (Z.of_nat (List.length wav) <= s ->
     w_data (mkWrite "data/phonemes/a__ah_S__4.wav" 8 [0; 0])
     = repeat 0 (Z.to_nat (data_size_of sr))).
Proof.
  split; [vm_compute; reflexivity|].
  apply (segment_past_audio_is_zeros fs_short "data/raw/a.wav"
           [mkWrite "data/phonemes/a__ah_S__1.wav" 8 [3; 0];
            mkWrite "data/phonemes/a__ah_S__2.wav" 8 [3; 0];
            mkWrite "data/phonemes/a__ah_S__3.wav" 8 [3; 0];
            mkWrite "data/phonemes/a__ah_S__4.wav" 8 [0; 0];
            mkWrite "data/phonemes/a__ah_S__5.wav" 8 [0; 0]]).
  - vm_compute; reflexivity.
  - right; right; right; left; reflexivity.
Defined.

(** ** Length of a timeline *)

Lemma frames_of_ok (lines : list Line) :
  forall indices tl,
    frames_of lines indices = Ok tl ->
    List.length tl = List.length indices /\
    forall k f, nth_error tl k = Some f ->
      exists i, nth_error indices k = Some i /\
                start f = (inject_Z i / 1000)%Q /\
                end_ f = (inject_Z (i + FRAME_SIZE) / 1000)%Q.
Proof.
  induction indices as [|i rest IH]; intros tl H; cbn [frames_of] in H.
  - injection H as <-. split; [reflexivity|]. intros [|k] f Hk; discriminate Hk.
  - unfold bind in H.
    destruct (scan_lines (inject_Z (i + FRAME_SIZE) / 1000) lines None) as [sym|];
      [|discriminate].
    destruct (frames_of lines rest) as [tl'|] eqn:E; [|discriminate].
    injection H as <-. destruct (IH tl' eq_refl) as [Hlen Hnth].
    split; [cbn [List.length]; now rewrite Hlen|].
    intros [|k] f Hk.
    + injection Hk as <-. exists i. repeat split.
    + apply Hnth in Hk as (j & Hj & Hs & He). exists j. repeat split; assumption.
Qed.

(** X21: whenever [get_phoneme_timestamps] returns a timeline, whatever the
    lines of the file are, the timeline has ceil(p / WINDOW) frames for
    the loop bound [p] computed from the end of the last line (none when
    [p] is not positive), and its frame at position [k] starts at
    k * WINDOW milliseconds and is [FRAME_SIZE] milliseconds long. *)
Theorem timeline_length_and_stride
  (fs : FileSystem) (audio_label_path : string) (tl : list Frame) :
  get_phoneme_timestamps fs audio_label_path = Ok tl ->
  exists l rest x p,
    labels fs audio_label_path = Some (l :: rest) /\
    l_end (last rest l) = Some x /\
    padded_of x = Ok p /\
    List.length tl = Z.to_nat ((p + WINDOW - 1) / WINDOW) /\
    (p <= 0 -> tl = []) /\
    forall k f, nth_error tl k = Some f ->
      (start f * 1000 == inject_Z (Z.of_nat k * WINDOW))%Q /\
      ((end_ f - start f) * 1000 == inject_Z FRAME_SIZE)%Q.
Proof.
  unfold get_phoneme_timestamps.
  destruct (labels fs audio_label_path) as [lines|]; [|discriminate].
  unfold timeline_of_lines, unpack3.
  destruct (Nat.eqb (columns lines) 3); [|discriminate]. cbn [bind].
  destruct lines as [|l rest]; [discriminate|].
  unfold float_field. destruct (l_end (last rest l)) as [x|] eqn:Ex; [|discriminate].
  cbn [bind]. destruct (padded_of x) as [p|] eqn:Ep; [|discriminate]. cbn [bind].
  intros H. apply frames_of_ok in H as [Hlen Hnth].
  rewrite range_window_length in Hlen.
  exists l, rest, x, p. repeat split; try assumption; try reflexivity.
  - intros Hneg. apply length_zero_iff_nil. rewrite Hlen. unfold WINDOW.
    assert ((p + 50 - 1) / 50 < 1); [apply Z.div_lt_upper_bound; lia|lia].
  - destruct (Hnth k f H) as (i & Hi & -> & _).
    assert (Hk : (k < List.length (Py.range 0 p WINDOW))%nat).
    { apply nth_error_Some. now rewrite Hi. }
    rewrite range_window_nth in Hi by exact Hk. injection Hi as <-. field.
  - destruct (Hnth k f H) as (i & _ & -> & ->). rewrite inject_Z_plus. field.
Qed.

Lemma timeline_length_and_stride_witness :
  get_phoneme_timestamps fs_short "data/raw/a_labels.txt"
  = Ok (map (frame_at [mkInterval 0.10 0.15 "ah_S"]) [0; 50; 100; 150; 200]) /\
  exists l rest x p,
    labels fs_short "data/raw/a_labels.txt" = Some (l :: rest) /\
    l_end (last rest l) = Some x /\
    padded_of x = Ok p /\
    List.length (map (frame_at [mkInterval 0.10 0.15 "ah_S"]) [0; 50; 100; 150; 200])
    = Z.to_nat ((p + WINDOW - 1) / WINDOW).
Proof.
  split; [reflexivity|].
  destruct (timeline_length_and_stride fs_short "data/raw/a_labels.txt"
              (map (frame_at [mkInterval 0.10 0.15 "ah_S"]) [0; 50; 100; 150; 200])
              eq_refl) as (l & rest & x & p & H1 & H2 & H3 & H4 & _).
  exists l, rest, x, p. auto.
Defined.

(** ** [stream_batch] on any arguments *)

(** X22: [stream_batch] never returns: called with a number of arguments
    other than two it raises [TypeError], and called with two, whatever
    they are, it raises [AttributeError] on [self.lazy_load_files], which
    no object of the notebook has. *)
Theorem stream_batch_never_returns (args : list pyobj) :
  (List.length args <> 2%nat -> stream_batch args = Raise TypeError) /\
  (forall self batched_files,
     stream_batch [self; batched_files] = Raise AttributeError) /\
  (forall r, stream_batch args <> Ok r).
Proof.
  split; [|split].
  - intros H. unfold stream_batch, call. cbn [stream_batch_params List.length].
    destruct (Nat.eqb_spec (List.length args) 2); [contradiction|reflexivity].
  - intros self batched_files. destruct self; reflexivity.
  - intros r. unfold stream_batch, call. cbn [stream_batch_params List.length].
    destruct (Nat.eqb_spec (List.length args) 2) as [E|_]; [|discriminate].
    destruct args as [|a [|b [|c args]]]; try discriminate E.
    destruct a; discriminate.
Qed.

Lemma stream_batch_never_returns_witness :
  List.length [PGrouped [[Some "i0"%string]]] <> 2%nat /\
  stream_batch [PGrouped [[Some "i0"%string]]] = Raise TypeError.
Proof.
  split; [discriminate|].
  apply (proj1 (stream_batch_never_returns [PGrouped [[Some "i0"%string]]])).
  discriminate.
Defined.
